(** * localflavor/it/util.py: Italian fiscal codes (SSN) and VAT numbers

    A shallow embedding of [src/localflavor/it/util.py].

    Model conventions.
    - A Python [str] is a [list ascii] ([pystr]); the development covers
      ASCII text, on which [str.upper] maps ['a'..'z'] to ['A'..'Z'] and
      leaves every other character alone.
    - Indexing [s[i]] is [nth_error]; a miss raises [IndexError].
      Slicing [s[a:b]] is [firstn]/[skipn].
    - Raised exceptions are the [Err] branch of [result].  Every [ValueError]
      carries its message: the [int()] parse failure ("invalid literal for
      int() with base 10"), the checksum helper's
      "Character '%(char)s' is not allowed." and the validators'
      "Check digit does not match.". *)

From Stdlib Require Import Ascii String List ZArith Bool Lia.
Import ListNotations.
Open Scope Z_scope.

(** ** Python values, exceptions and the error monad *)

Definition pystr := list ascii.

(** A Python string literal. *)
Definition py (s : string) : pystr := list_ascii_of_string s.

Inductive msg :=
| InvalidLiteral (s : pystr)   (** int(s): invalid literal for int() with base 10 *)
| CharNotAllowed (c : ascii)   (** "Character '%(char)s' is not allowed." *)
| CheckDigitMismatch.          (** 'Check digit does not match.' *)

Inductive exn :=
| ValueError (m : msg)
| IndexError
| AssertionError.

Inductive result (A : Type) :=
| Ok (a : A)
| Err (e : exn).
Arguments Ok {A} a.
Arguments Err {A} e.

Definition bind {A B} (r : result A) (k : A -> result B) : result B :=
  match r with
  | Ok a => k a
  | Err e => Err e
  end.

Notation "x <- r ;; k" := (bind r (fun x => k))
  (at level 61, r at next level, right associativity).

(** Python objects handed to [ssn_isvalid] and the decoders. *)
Inductive pyval :=
| PStr (s : pystr)
| PInt (z : Z)
| PNone.

(** [s[i]] *)
Definition index (s : pystr) (i : nat) : result ascii :=
  match nth_error s i with
  | Some c => Ok c
  | None => Err IndexError
  end.

(** [s[a:b]] with [0 <= a <= b] *)
Definition slice (s : pystr) (a b : nat) : pystr :=
  firstn (b - a) (skipn a s).

(** ** Characters *)

Definition in_range (lo hi : nat) (c : ascii) : bool :=
  (lo <=? nat_of_ascii c)%nat && (nat_of_ascii c <=? hi)%nat.

Definition is_digit (c : ascii) : bool := in_range 48 57 c.
Definition is_upper (c : ascii) : bool := in_range 65 90 c.
Definition is_lower (c : ascii) : bool := in_range 97 122 c.
Definition is_alnum_upper (c : ascii) : bool := is_digit c || is_upper c.

Definition digit_value (c : ascii) : Z := Z.of_nat (nat_of_ascii c) - 48.
Definition digit_char (d : Z) : ascii := ascii_of_nat (Z.to_nat (48 + d)).

(** [str.upper] on ASCII text. *)
Definition upper_char (c : ascii) : ascii :=
  if is_lower c then ascii_of_nat (nat_of_ascii c - 32) else c.

Definition upper (s : pystr) : pystr := map upper_char s.

(** A dict literal, looked up with [d[k]] ([None] is the [KeyError]). *)
Definition dict (V : Type) := list (ascii * V).

Fixpoint dict_get {V} (d : dict V) (k : ascii) : option V :=
  match d with
  | [] => None
  | (k', v) :: d' => if Ascii.eqb k k' then Some v else dict_get d' k
  end.

(** ** Python's [int()], [str()] and [str.zfill] *)

Definition is_space (c : ascii) : bool :=
  match nat_of_ascii c with
  | 32 | 9 | 10 | 11 | 12 | 13 => true
  | _ => false
  end%nat.

Fixpoint strip_left (s : pystr) : pystr :=
  match s with
  | c :: s' => if is_space c then strip_left s' else s
  | [] => []
  end.

Definition strip (s : pystr) : pystr := rev (strip_left (rev (strip_left s))).

(** Digits read left to right into an accumulator. *)
Fixpoint parse_digits (acc : Z) (s : pystr) : option Z :=
  match s with
  | [] => Some acc
  | c :: s' => if is_digit c then parse_digits (acc * 10 + digit_value c) s'
               else None
  end.

Definition parse_unsigned (s : pystr) : option Z :=
  match s with
  | [] => None
  | _ => parse_digits 0 s
  end.

(** [int(s)] for a [str]: surrounding whitespace, an optional sign, then
    decimal digits. *)
Definition py_int_str (s : pystr) : result Z :=
  let t := strip s in
  let r := match t with
           | "-"%char :: u => option_map Z.opp (parse_unsigned u)
           | "+"%char :: u => parse_unsigned u
           | _ => parse_unsigned t
           end in
  match r with
  | Some z => Ok z
  | None => Err (ValueError (InvalidLiteral s))
  end.

(** Little-endian decimal digits of [n >= 0]; [fuel] bounds the bit size. *)
Fixpoint lsd (fuel : nat) (n : Z) : list Z :=
  match fuel with
  | O => [n]
  | S f => if n <? 10 then [n] else n mod 10 :: lsd f (n / 10)
  end.

Definition digits_of (n : Z) : pystr :=
  map digit_char (rev (lsd (S (Z.to_nat (Z.log2 n))) n)).

(** [str(z)] for an int. *)
Definition py_str_Z (z : Z) : pystr :=
  if z <? 0 then "-"%char :: digits_of (- z) else digits_of z.

Definition zeros (n : nat) : pystr := repeat "0"%char n.

(** [s.zfill(w)]: pad with zeros on the left, after a leading sign. *)
Definition zfill (w : nat) (s : pystr) : pystr :=
  if (w <=? length s)%nat then s
  else let fill := (w - length s)%nat in
       match s with
       | c :: s' => if Ascii.eqb c "+" || Ascii.eqb c "-"
                    then c :: zeros fill ++ s'
                    else zeros fill ++ s
       | [] => zeros fill
       end.

(** [a == b] on strings *)
Fixpoint str_eqb (a b : pystr) : bool :=
  match a, b with
  | [], [] => true
  | x :: a', y :: b' => Ascii.eqb x y && str_eqb a' b'
  | _, _ => false
  end.

(** [c and y or z] *)
Definition and_or {A} (truthy : A -> bool) (c : bool) (y z : A) : A :=
  if c then (if truthy y then y else z) else z.

Definition int_truthy (z : Z) : bool := negb (z =? 0).
Definition str_truthy (s : pystr) : bool :=
  match s with [] => false | _ => true end.

(** ["%02d" % z]: sign, then zeros up to width 2, then the digits of [|z|]. *)
Definition fmt02d (z : Z) : pystr :=
  let sign := if z <? 0 then py "-" else [] in
  let ds := digits_of (Z.abs z) in
  sign ++ zeros (2 - length sign - length ds) ++ ds.

(** ** The fiscal-code pattern and [re.match] *)

(** One item of a regular expression whose every item has fixed width. *)
Inductive rx_item :=
| RBol                              (** ^ *)
| REol                              (** $ *)
| RCls (p : ascii -> bool)          (** [...] *)
| RAlt (p q : ascii -> bool).       (** ([...]|[...]) *)

Definition cls_month (c : ascii) : bool :=
  existsb (Ascii.eqb c) (py "ABCDEHLMPRST").

(** [PATTERN = '^[A-Z]{6}[0-9]{2}([ABCDEHLMPRST])[0-9]{2}[A-Z][0-9]([A-Z]|[0-9])[0-9][A-Z]$'] *)
Definition PATTERN : list rx_item :=
  [RBol] ++ repeat (RCls is_upper) 6 ++ repeat (RCls is_digit) 2
  ++ [RCls cls_month] ++ repeat (RCls is_digit) 2
  ++ [RCls is_upper; RCls is_digit; RAlt is_upper is_digit; RCls is_digit;
      RCls is_upper; REol].

(** [re.match(pattern, s) is not None], matching from position [pos].
    Without MULTILINE, [$] matches at the end of the string and also just
    before a newline that ends the string. *)
Fixpoint rx_match (r : list rx_item) (s : pystr) (pos : nat) : bool :=
  match r with
  | [] => true
  | RBol :: r' => (pos =? 0)%nat && rx_match r' s pos
  | REol :: r' =>
      ((pos =? length s)%nat
       || ((S pos =? length s)%nat
           && match nth_error s pos with
              | Some c => Ascii.eqb c "010"
              | None => false
              end))
      && rx_match r' s pos
  | RCls p :: r' =>
      match nth_error s pos with
      | Some c => p c && rx_match r' s (S pos)
      | None => false
      end
  | RAlt p q :: r' =>
      match nth_error s pos with
      | Some c => (p c || q c) && rx_match r' s (S pos)
      | None => false
      end
  end.

Definition re_match (r : list rx_item) (s : pystr) : bool := rx_match r s 0.

Definition MONTHSCODE : pystr := py "ABCDEHLMPRST".

(** [lst.index(x)] *)
Fixpoint list_index (l : pystr) (x : ascii) : result nat :=
  match l with
  | [] => Err (ValueError (InvalidLiteral [x]))
  | y :: l' => if Ascii.eqb x y then Ok 0%nat
               else n <- list_index l' x ;; Ok (S n)
  end.

(** ** SSN functions *)

Definition ssn_isvalid (code : pyval) : bool :=
  match code with
  | PStr s => re_match PATTERN s
  | _ => false
  end.

Definition assert (b : bool) : result unit :=
  if b then Ok tt else Err AssertionError.

Definition ssn_get_birthday (code : pyval) : result pystr :=
  _ <- assert (ssn_isvalid code) ;;
  match code with
  | PStr s =>
      day <- py_int_str (slice s 9 11) ;;
      let day := and_or int_truthy (day <? 32) day (day - 40) in
      m <- index s 8 ;;
      month <- list_index MONTHSCODE m ;;
      let month := (Z.of_nat month + 1) in
      year <- py_int_str (slice s 6 8) ;;
      Ok (fmt02d day ++ py "/" ++ fmt02d month ++ py "/" ++ fmt02d year)
  | _ => Err AssertionError
  end.

Definition ssn_get_sex (code : pyval) : result pystr :=
  _ <- assert (ssn_isvalid code) ;;
  match code with
  | PStr s =>
      day <- py_int_str (slice s 9 11) ;;
      Ok (and_or str_truthy (day <? 32) (py "M") (py "F"))
  | _ => Err AssertionError
  end.

Definition ssn_even_chars : dict Z :=
  map (fun '(k, v) => (ascii_of_nat k, Z.of_nat v))
  [(48, 0); (49, 1); (50, 2); (51, 3); (52, 4); (53, 5); (54, 6); (55, 7);
   (56, 8); (57, 9); (65, 0); (66, 1); (67, 2); (68, 3); (69, 4); (70, 5);
   (71, 6); (72, 7); (73, 8); (74, 9); (75, 10); (76, 11); (77, 12);
   (78, 13); (79, 14); (80, 15); (81, 16); (82, 17); (83, 18); (84, 19);
   (85, 20); (86, 21); (87, 22); (88, 23); (89, 24); (90, 25)]%nat.

Definition ssn_odd_chars : dict Z :=
  map (fun '(k, v) => (ascii_of_nat k, Z.of_nat v))
  [(48, 1); (49, 0); (50, 5); (51, 7); (52, 9); (53, 13); (54, 15);
   (55, 17); (56, 19); (57, 21); (65, 1); (66, 0); (67, 5); (68, 7);
   (69, 9); (70, 13); (71, 15); (72, 17); (73, 19); (74, 21); (75, 2);
   (76, 4); (77, 18); (78, 20); (79, 11); (80, 3); (81, 6); (82, 8);
   (83, 12); (84, 14); (85, 16); (86, 10); (87, 22); (88, 25); (89, 24);
   (90, 23)]%nat.

(** [ssn_check_digits = [chr(x) for x in range(65, 91)]] *)
Definition ssn_check_digits : pystr := map ascii_of_nat (seq 65 26).

(** [for i in range(i, i + fuel)]: the body with its [try/except KeyError]. *)
Fixpoint ssn_loop (ssn : pystr) (i fuel : nat) (total : Z) : result Z :=
  match fuel with
  | O => Ok total
  | S f =>
      c <- index ssn i ;;
      let table := if Nat.even i then ssn_odd_chars else ssn_even_chars in
      match dict_get table c with
      | Some w => ssn_loop ssn (S i) f (total + w)
      | None => Err (ValueError (CharNotAllowed c))
      end
  end.

Definition ssn_check_digit (value : pystr) : result ascii :=
  let ssn := upper value in
  total <- ssn_loop ssn 0 15 0 ;;
  index ssn_check_digits (Z.to_nat (total mod 26)).

Definition ssn_validation (ssn_value : pystr) : result pystr :=
  check_digit <- ssn_check_digit ssn_value ;;
  c <- index ssn_value 15 ;;
  if negb (Ascii.eqb c check_digit)
  then Err (ValueError CheckDigitMismatch)
  else Ok ssn_value.

(** ** VAT functions *)

(** Inputs of [vat_number_validation]: a [str] or an [int]. *)
Inductive vat_input :=
| VatStr (s : pystr)
| VatInt (z : Z).

(** [int(vat_number)] *)
Definition vat_int (v : vat_input) : result Z :=
  match v with
  | VatStr s => py_int_str s
  | VatInt z => Ok z
  end.

(** [for i in idx: total += f(i)] in the error monad. *)
Fixpoint sum_loop (f : nat -> result Z) (idx : list nat) (total : Z) : result Z :=
  match idx with
  | [] => Ok total
  | i :: idx' => x <- f i ;; sum_loop f idx' (total + x)
  end.

Definition vat_number_check_digit (vat_number : pystr) : result pystr :=
  let normalized_vat_number := zfill 10 vat_number in
  total <- sum_loop (fun i => c <- index normalized_vat_number i ;; py_int_str [c])
                    [0; 2; 4; 6; 8]%nat 0 ;;
  total <- sum_loop (fun i => c <- index normalized_vat_number i ;;
                              d <- py_int_str [c] ;;
                              Ok ((d * 2) / 10 + (d * 2) mod 10))
                    [1; 3; 5; 7; 9]%nat total ;;
  Ok (py_str_Z ((10 - total mod 10) mod 10)).

Definition vat_number_validation (vat_number : vat_input) : result pystr :=
  n <- vat_int vat_number ;;
  let vat_number := zfill 11 (py_str_Z n) in
  check_digit <- vat_number_check_digit (slice vat_number 0 10) ;;
  c <- index vat_number 10 ;;
  if negb (str_eqb [c] check_digit)
  then Err (ValueError CheckDigitMismatch)
  else Ok vat_number.

(** ** The weight tables and the check letter as the spec states them *)

Module SpecSSN.

(** Odd-position table (0-based even index). *)
Definition odd_digits : list Z := [1; 0; 5; 7; 9; 13; 15; 17; 19; 21].
Definition odd_letters : list Z :=
  [1; 0; 5; 7; 9; 13; 15; 17; 19; 21; 2; 4; 18; 20; 11; 3; 6; 8; 12; 14;
   16; 10; 22; 25; 24; 23].
(** Even-position table (0-based odd index). *)
Definition even_digits : list Z := [0; 1; 2; 3; 4; 5; 6; 7; 8; 9].
Definition even_letters : list Z :=
  [0; 1; 2; 3; 4; 5; 6; 7; 8; 9; 10; 11; 12; 13; 14; 15; 16; 17; 18; 19;
   20; 21; 22; 23; 24; 25].

Definition weight (digits letters : list Z) (c : ascii) : Z :=
  if is_digit c then nth (nat_of_ascii c - 48) digits 0
  else nth (nat_of_ascii c - 65) letters 0.

Definition odd_weight := weight odd_digits odd_letters.
Definition even_weight := weight even_digits even_letters.

(** The weight of the character at 0-based index [j]. *)
Definition weight_at (ssn : pystr) (j : nat) : Z :=
  if Nat.even j then odd_weight (nth j ssn "0"%char)
  else even_weight (nth j ssn "0"%char).

Definition total (ssn : pystr) : Z :=
  fold_right Z.add 0 (map (weight_at ssn) (seq 0 15)).

(** [chr(65 + (sum mod 26))] *)
Definition check_letter (ssn : pystr) : ascii :=
  ascii_of_nat (65 + Z.to_nat (total ssn mod 26)).

End SpecSSN.

(** Every index the loop visits holds a table character. *)
Definition alnum_upto (ssn : pystr) (n : nat) : Prop :=
  forall j, (j < n)%nat ->
    exists c, nth_error ssn j = Some c /\ is_alnum_upper c = true.

Ltac pick_eq := first [reflexivity | left; reflexivity | right; pick_eq].


(** The raw two-digit integer at 1-indexed positions 10-11. *)
Definition raw_day (s : pystr) : Z :=
  10 * digit_value (nth 9 s "0"%char) + digit_value (nth 10 s "0"%char).

Definition parse_value (s : pystr) : Z :=
  fold_left (fun a c => a * 10 + digit_value c) s 0.

(** ** The VAT check digit as the spec states it *)

Module SpecVAT.

(** Double the digit, then add the tens and units of the result. *)
Definition dbl (d : Z) : Z := (2 * d) / 10 + (2 * d) mod 10.

(** Digits at even 0-based positions added directly, digits at odd
    positions through [dbl]. *)
Definition total (d : nat -> Z) : Z :=
  d 0%nat + d 2%nat + d 4%nat + d 6%nat + d 8%nat
  + dbl (d 1%nat) + dbl (d 3%nat) + dbl (d 5%nat) + dbl (d 7%nat) + dbl (d 9%nat).

Definition digit_at (s : pystr) (i : nat) : Z := digit_value (nth i s "0"%char).

(** [(10 - (sum mod 10)) mod 10] *)
Definition check (s : pystr) : Z := (10 - total (digit_at s) mod 10) mod 10.

End SpecVAT.

(** ** Municipality lookup *)

(** A Python slice bound: negative bounds count from the end, and bounds
    are clamped to [0, len]. *)
Definition py_norm_index (len : nat) (i : Z) : nat :=
  Z.to_nat (Z.max 0 (Z.min (Z.of_nat len) (if i <? 0 then i + Z.of_nat len else i))).

(** [s[a:b]] for any integer bounds. *)
Definition py_slice (s : pystr) (a b : Z) : pystr :=
  let a' := py_norm_index (length s) a in
  let b' := py_norm_index (length s) b in
  firstn (b' - a') (skipn a' s).

(** [CODICI_CHOICES] comes from [it_codici], a data module outside this
    development; the function is stated for any table, given by its
    [.get]. *)
Definition ssn_get_municipality (CODICI_CHOICES : pystr -> option pystr)
    (code : pyval) : result pystr :=
  _ <- assert (ssn_isvalid code) ;;
  match code with
  | PStr s =>
      Ok (match CODICI_CHOICES (py_slice s (-5) (-1)) with
          | Some v => v
          | None => py "Altro"
          end)
  | _ => Err AssertionError
  end.

(** ** Vocabulary for properties of the code *)

(** The character class at each of the 16 positions of [PATTERN]. *)
Definition fc_classes : list (ascii -> bool) :=
  repeat is_upper 6 ++ repeat is_digit 2 ++ [cls_month] ++ repeat is_digit 2
  ++ [is_upper; is_digit; fun c => (is_upper c || is_digit c)%bool; is_digit; is_upper].

(** The rank of a character of [0-9A-Z]: ['0'..'9'] give 0..9 and
    ['A'..'Z'] give 0..25. *)
Definition rank (c : ascii) : nat :=
  if is_digit c then (nat_of_ascii c - 48)%nat else (nat_of_ascii c - 65)%nat.

(** The list [s] with its element at index [j] replaced by [x]. *)
Definition replace_at (s : pystr) (j : nat) (x : ascii) : pystr :=
  firstn j s ++ x :: skipn (S j) s.

(** The weight table of the letters at a 0-based index: [true] for an even
    index (the odd-position table), [false] for an odd one. *)
Definition pos_letters (b : bool) : list Z :=
  if b then SpecSSN.odd_letters else SpecSSN.even_letters.

(** ** Fiscal-code checksum *)

Lemma odd_chars_spec (c : ascii) :
  is_alnum_upper c = true -> dict_get ssn_odd_chars c = Some (SpecSSN.odd_weight c).
Proof.
  destruct c as [[] [] [] [] [] [] [] []]; vm_compute; intros H;
    first [discriminate H | reflexivity].
Qed.

Lemma even_chars_spec (c : ascii) :
  is_alnum_upper c = true -> dict_get ssn_even_chars c = Some (SpecSSN.even_weight c).
Proof.
  destruct c as [[] [] [] [] [] [] [] []]; vm_compute; intros H;
    first [discriminate H | reflexivity].
Qed.

Lemma odd_chars_none (c : ascii) :
  is_alnum_upper c = false -> dict_get ssn_odd_chars c = None.
Proof.
  destruct c as [[] [] [] [] [] [] [] []]; vm_compute; intros H;
    first [discriminate H | reflexivity].
Qed.

Lemma even_chars_none (c : ascii) :
  is_alnum_upper c = false -> dict_get ssn_even_chars c = None.
Proof.
  destruct c as [[] [] [] [] [] [] [] []]; vm_compute; intros H;
    first [discriminate H | reflexivity].
Qed.

Lemma ssn_loop_total (ssn : pystr) (fuel : nat) :
  forall i total, alnum_upto ssn (i + fuel) ->
  ssn_loop ssn i fuel total =
  Ok (total + fold_right Z.add 0 (map (SpecSSN.weight_at ssn) (seq i fuel))).
Proof.
  induction fuel as [|f IH]; intros i total Hal; cbn [ssn_loop seq map fold_right].
  - f_equal; lia.
  - destruct (Hal i ltac:(lia)) as [c [Hc Hac]].
    unfold index; rewrite Hc; cbn [bind].
    assert (Hw : nth i ssn "0"%char = c) by (apply nth_error_nth; exact Hc).
    destruct (Nat.even i) eqn:He.
    + rewrite (odd_chars_spec c Hac).
      assert (Hwi : SpecSSN.weight_at ssn i = SpecSSN.odd_weight c)
        by (unfold SpecSSN.weight_at; rewrite He, Hw; reflexivity).
      rewrite IH by (intros j Hj; apply Hal; lia). rewrite Hwi. f_equal; lia.
    + rewrite (even_chars_spec c Hac).
      assert (Hwi : SpecSSN.weight_at ssn i = SpecSSN.even_weight c)
        by (unfold SpecSSN.weight_at; rewrite He, Hw; reflexivity).
      rewrite IH by (intros j Hj; apply Hal; lia). rewrite Hwi. f_equal; lia.
Qed.

Lemma check_digits_at (k : nat) :
  (k < 26)%nat -> index ssn_check_digits k = Ok (ascii_of_nat (65 + k)).
Proof.
  intros Hk. unfold index, ssn_check_digits.
  rewrite nth_error_map, nth_error_seq.
  destruct (Nat.ltb_spec k 26); [reflexivity | lia].
Qed.

Lemma ssn_check_digit_spec (value : pystr) :
  alnum_upto (upper value) 15 ->
  ssn_check_digit value = Ok (SpecSSN.check_letter (upper value)).
Proof.
  intros Hal. unfold ssn_check_digit.
  rewrite (ssn_loop_total (upper value) 15 0 0 Hal); cbn [bind].
  unfold SpecSSN.check_letter, SpecSSN.total.
  apply check_digits_at.
  set (t := fold_right Z.add 0 _).
  pose proof (Z.mod_pos_bound t 26 ltac:(lia)) as Hb.
  apply Nat2Z.inj_lt; rewrite Z2Nat.id by lia; lia.
Qed.

Lemma check_letter_is_upper (ssn : pystr) : is_upper (SpecSSN.check_letter ssn) = true.
Proof.
  unfold SpecSSN.check_letter.
  set (t := SpecSSN.total ssn).
  pose proof (Z.mod_pos_bound t 26 ltac:(lia)) as Hb.
  assert (Hk : (Z.to_nat (t mod 26) < 26)%nat)
    by (apply Nat2Z.inj_lt; rewrite Z2Nat.id by lia; lia).
  unfold is_upper, in_range.
  rewrite nat_ascii_embedding by lia.
  apply andb_true_intro; split; apply Nat.leb_le; lia.
Qed.

Lemma upper_char_alnum (c : ascii) : is_alnum_upper c = true -> upper_char c = c.
Proof.
  destruct c as [[] [] [] [] [] [] [] []]; vm_compute; intros H;
    first [discriminate H | reflexivity].
Qed.

Lemma alnum_upto_upper (s : pystr) (n : nat) :
  alnum_upto s n -> alnum_upto (upper s) n.
Proof.
  intros Hal j Hj. destruct (Hal j Hj) as [c [Hc Hac]].
  exists c. unfold upper. rewrite nth_error_map, Hc. simpl.
  rewrite (upper_char_alnum c Hac). auto.
Qed.

(** The loop stops at the first index holding a character outside both
    tables and reports that character. *)
Lemma ssn_loop_bad (ssn : pystr) (c : ascii) (j : nat) (fuel : nat) :
  forall i total, (i <= j < i + fuel)%nat ->
  (forall k, (i <= k < j)%nat ->
     exists c', nth_error ssn k = Some c' /\ is_alnum_upper c' = true) ->
  nth_error ssn j = Some c -> is_alnum_upper c = false ->
  ssn_loop ssn i fuel total = Err (ValueError (CharNotAllowed c)).
Proof.
  induction fuel as [|f IH]; intros i total Hj Hok Hc Hbad; [lia|].
  cbn [ssn_loop]. unfold index.
  destruct (Nat.eq_dec i j) as [->|Hne].
  - rewrite Hc; cbn [bind].
    destruct (Nat.even j);
      [rewrite (odd_chars_none c Hbad) | rewrite (even_chars_none c Hbad)];
      reflexivity.
  - destruct (Hok i ltac:(lia)) as [c' [Hc' Ha']].
    rewrite Hc'; cbn [bind].
    destruct (Nat.even i);
      [rewrite (odd_chars_spec c' Ha') | rewrite (even_chars_spec c' Ha')];
      apply IH; auto; try lia; intros k Hk; apply Hok; lia.
Qed.

Lemma check_letter_ext (a b : pystr) :
  (forall j, (j < 15)%nat -> nth j a "0"%char = nth j b "0"%char) ->
  SpecSSN.check_letter a = SpecSSN.check_letter b.
Proof.
  intros Hab. unfold SpecSSN.check_letter, SpecSSN.total.
  rewrite (map_ext_in (SpecSSN.weight_at a) (SpecSSN.weight_at b)); [reflexivity|].
  intros j Hj.
  apply in_seq in Hj. unfold SpecSSN.weight_at.
  rewrite (Hab j ltac:(lia)). reflexivity.
Qed.

(** [C1] For every string whose uppercased form has 15 or more characters,
    the first 15 of them in [0-9A-Z], [ssn_check_digit] weighs the
    character at each even 0-based index with the spec's odd-position table
    and each odd index with the spec's even-position table, sums the 15
    weights and returns [chr(65 + (sum mod 26))]. *)
Theorem ssn_check_digit_tables (value : pystr) :
  (15 <= length (upper value))%nat ->
  alnum_upto (upper value) 15 ->
  ssn_check_digit value =
  Ok (ascii_of_nat (65 + Z.to_nat
        (fold_right Z.add 0 (map (SpecSSN.weight_at (upper value)) (seq 0 15)) mod 26))).
Proof.
  intros _ Hal. exact (ssn_check_digit_spec value Hal).
Qed.

Lemma ssn_check_digit_tables_witness :
  (15 <= length (upper (py "rccmnl83s18d969")))%nat /\
  alnum_upto (upper (py "rccmnl83s18d969")) 15 /\
  ssn_check_digit (py "rccmnl83s18d969") = Ok "H"%char.
Proof.
  assert (Hal : alnum_upto (upper (py "rccmnl83s18d969")) 15).
  { intros j Hj.
    do 15 (destruct j as [|j]; [eexists; split; [reflexivity | reflexivity] |]).
    lia. }
  split; [vm_compute; lia | split; [exact Hal |]].
  rewrite (ssn_check_digit_tables (py "rccmnl83s18d969") ltac:(vm_compute; lia) Hal).
  vm_compute. reflexivity.
Defined.

(** [C7] (as amended) On every string whose uppercased form has its first
    15 characters in [0-9A-Z], [ssn_check_digit] never takes the error
    branch and returns a letter in ['A'..'Z']; when the character at some
    index [j < 15] of the uppercased string lies outside [0-9A-Z] and every
    earlier character lies inside, it fails with the ValueError
    "Character '%(char)s' is not allowed." naming that character. *)
Theorem ssn_check_digit_total_or_names_first (value : pystr) :
  (alnum_upto (upper value) 15 ->
     exists c, ssn_check_digit value = Ok c /\ is_upper c = true) /\
  (forall j c, (j < 15)%nat -> alnum_upto (upper value) j ->
     nth_error (upper value) j = Some c -> is_alnum_upper c = false ->
     ssn_check_digit value = Err (ValueError (CharNotAllowed c))).
Proof.
  split.
  - intros Hal. exists (SpecSSN.check_letter (upper value)). split.
    + exact (ssn_check_digit_spec value Hal).
    + apply check_letter_is_upper.
  - intros j c Hj Hok Hc Hbad. unfold ssn_check_digit.
    rewrite (ssn_loop_bad (upper value) c j 15 0 0 ltac:(lia)); auto.
    intros k Hk. apply Hok. lia.
Qed.

Lemma ssn_check_digit_total_or_names_first_witness :
  alnum_upto (upper (py "RCCMNL83S18D969")) 15 /\
  ssn_check_digit (py "RCCMNL83S!8D969") = Err (ValueError (CharNotAllowed "!"%char)).
Proof.
  assert (Hal : alnum_upto (upper (py "RCCMNL83S18D969")) 15).
  { intros j Hj.
    do 15 (destruct j as [|j]; [eexists; split; [reflexivity | reflexivity] |]).
    lia. }
  split; [exact Hal |].
  apply (proj2 (ssn_check_digit_total_or_names_first (py "RCCMNL83S!8D969")) 9%nat).
  - lia.
  - intros j Hj.
    do 9 (destruct j as [|j]; [eexists; split; [reflexivity | reflexivity] |]).
    lia.
  - reflexivity.
  - reflexivity.
Defined.

(** [C7] (as stated, refuted) With two offending characters among the first
    15, the message names only the first: for ["!?AAAAAAAAAAAAA"] the
    character ['?'] at index 1 lies outside [0-9A-Z], yet the error names
    ['!'], not ['?']. *)
Lemma ssn_check_digit_names_every_bad_char_fails :
  ~ (forall value j c, (j < 15)%nat -> nth_error (upper value) j = Some c ->
       is_alnum_upper c = false ->
       ssn_check_digit value = Err (ValueError (CharNotAllowed c))).
Proof.
  intros H.
  specialize (H (py "!?AAAAAAAAAAAAA") 1%nat "?"%char ltac:(lia) eq_refl eq_refl).
  vm_compute in H. discriminate H.
Qed.

(** [C4] For a 16-character code whose first 15 characters are in [0-9A-Z],
    [ssn_validation] returns the code unchanged exactly when [code[15]]
    equals [ssn_check_digit(code)] and raises "Check digit does not match."
    exactly when it does not; replacing the last character of an accepted
    code by any other character makes it raise. *)
Theorem ssn_validation_checksum (code : pystr) :
  length code = 16%nat -> alnum_upto code 15 ->
  exists d, ssn_check_digit code = Ok d /\
    (ssn_validation code = Ok code <-> nth_error code 15 = Some d) /\
    (ssn_validation code = Err (ValueError CheckDigitMismatch) <->
       nth_error code 15 <> Some d) /\
    (ssn_validation code = Ok code -> forall c',
       nth_error code 15 <> Some c' ->
       ssn_validation (firstn 15 code ++ [c']) = Err (ValueError CheckDigitMismatch)).
Proof.
  intros Hlen Hal.
  pose proof (alnum_upto_upper code 15 Hal) as Hup.
  set (d := SpecSSN.check_letter (upper code)).
  assert (Hd : ssn_check_digit code = Ok d) by exact (ssn_check_digit_spec code Hup).
  assert (H15 : nth_error code 15 = Some (nth 15 code "0"%char))
    by (apply nth_error_nth'; lia).
  assert (Hval : forall s c, ssn_check_digit s = Ok d -> nth_error s 15 = Some c ->
            ssn_validation s =
            if Ascii.eqb c d then Ok s else Err (ValueError CheckDigitMismatch)).
  { intros s c Hs Hc. unfold ssn_validation. rewrite Hs. cbn [bind].
    unfold index. rewrite Hc. cbn [bind]. destruct (Ascii.eqb c d); reflexivity. }
  exists d. split; [exact Hd |].
  rewrite (Hval code _ Hd H15).
  destruct (Ascii.eqb_spec (nth 15 code "0"%char) d) as [Heq|Hne].
  - rewrite Heq in H15. split; [split; auto |].
    split; [split; [discriminate | intros Hn; contradiction] |].
    intros _ c' Hc'.
    assert (Hc'd : c' <> d) by (intros ->; contradiction).
    set (code' := firstn 15 code ++ [c']).
    assert (Hl15 : length (firstn 15 code) = 15%nat)
      by (rewrite length_firstn; lia).
    assert (Hsame : forall j, (j < 15)%nat -> nth_error code' j = nth_error code j).
    { intros j Hj. unfold code'. rewrite nth_error_app1 by lia.
      rewrite <- (firstn_skipn 15 code) at 2. rewrite nth_error_app1 by lia.
      reflexivity. }
    assert (Hal' : alnum_upto code' 15).
    { intros j Hj. rewrite Hsame by exact Hj. apply Hal; exact Hj. }
    assert (Hd' : ssn_check_digit code' = Ok d).
    { rewrite (ssn_check_digit_spec code' (alnum_upto_upper code' 15 Hal')).
      f_equal. unfold d. apply check_letter_ext. intros j Hj.
      destruct (Hal j Hj) as [c [Hc _]].
      assert (Hc2 : nth_error code' j = Some c) by (rewrite Hsame; auto).
      transitivity (upper_char c).
      + apply nth_error_nth. unfold upper. rewrite nth_error_map, Hc2. reflexivity.
      + symmetry. apply nth_error_nth. unfold upper. rewrite nth_error_map, Hc. reflexivity. }
    assert (H15' : nth_error code' 15 = Some c').
    { unfold code'. rewrite nth_error_app2 by lia. rewrite Hl15. reflexivity. }
    rewrite (Hval code' c' Hd' H15').
    destruct (Ascii.eqb_spec c' d); [contradiction | reflexivity].
  - split; [split; [discriminate | rewrite H15; intros Hs; inversion Hs; contradiction] |].
    split; [split; [intros _; rewrite H15; intros Hs; inversion Hs; contradiction | reflexivity] |].
    intros Hs; discriminate Hs.
Qed.

Lemma ssn_validation_checksum_witness :
  length (py "RCCMNL83S18D969H") = 16%nat /\ alnum_upto (py "RCCMNL83S18D969H") 15 /\
  ssn_validation (py "RCCMNL83S18D969J") = Err (ValueError CheckDigitMismatch).
Proof.
  assert (Hal : alnum_upto (py "RCCMNL83S18D969H") 15).
  { intros j Hj.
    do 15 (destruct j as [|j]; [eexists; split; [reflexivity | reflexivity] |]).
    lia. }
  split; [reflexivity | split; [exact Hal |]].
  destruct (ssn_validation_checksum (py "RCCMNL83S18D969H") eq_refl Hal)
    as [d [Hd [Hok [_ Hflip]]]].
  change (py "RCCMNL83S18D969J") with (firstn 15 (py "RCCMNL83S18D969H") ++ ["J"%char]).
  apply (Hflip ltac:(vm_compute; reflexivity) "J"%char).
  intros Hs; discriminate Hs.
Defined.

(** ** [int()] on digit strings *)

Lemma digit_cases (c : ascii) : is_digit c = true ->
  c = "0"%char \/ c = "1"%char \/ c = "2"%char \/ c = "3"%char \/ c = "4"%char \/
  c = "5"%char \/ c = "6"%char \/ c = "7"%char \/ c = "8"%char \/ c = "9"%char.
Proof.
  destruct c as [[] [] [] [] [] [] [] []]; vm_compute; intros H;
    first [discriminate H | pick_eq].
Qed.

Lemma digit_not_space (c : ascii) : is_digit c = true -> is_space c = false.
Proof.
  intros H. destruct (digit_cases c H) as [-> | [-> | [-> | [-> | [-> | [-> | [-> | [-> | [-> | ->]]]]]]]]];
    reflexivity.
Qed.

Lemma parse_digits_all (s : pystr) : forall acc,
  forallb is_digit s = true ->
  parse_digits acc s = Some (fold_left (fun a c => a * 10 + digit_value c) s acc).
Proof.
  induction s as [|c s IH]; intros acc H; simpl in *; [reflexivity|].
  apply andb_prop in H as [Hc Hs]. rewrite Hc. apply IH, Hs.
Qed.

Lemma strip_digits (s : pystr) : forallb is_digit s = true -> strip s = s.
Proof.
  intros H. unfold strip.
  assert (Hl : forall t, forallb is_digit t = true -> strip_left t = t).
  { intros [|c t] Ht; simpl in *; [reflexivity|].
    apply andb_prop in Ht as [Hc _]. rewrite (digit_not_space c Hc). reflexivity. }
  rewrite (Hl s H), Hl, rev_involutive; [reflexivity|].
  rewrite forallb_forall in *. intros x Hx. apply H, in_rev, Hx.
Qed.

(** [int(s)] on a non-empty string of decimal digits, leading zeros
    included. *)
Lemma py_int_str_digits (s : pystr) :
  s <> [] -> forallb is_digit s = true ->
  py_int_str s = Ok (fold_left (fun a c => a * 10 + digit_value c) s 0).
Proof.
  intros Hne H. unfold py_int_str. rewrite (strip_digits s H).
  destruct s as [|c s']; [contradiction|].
  assert (Hp : parse_unsigned (c :: s') =
               Some (fold_left (fun a c => a * 10 + digit_value c) (c :: s') 0))
    by (apply parse_digits_all, H).
  simpl in H. apply andb_prop in H as [Hc _].
  destruct (digit_cases c Hc) as [-> | [-> | [-> | [-> | [-> | [-> | [-> | [-> | [-> | ->]]]]]]]]];
    rewrite Hp; reflexivity.
Qed.

(** ** The fiscal-code shape *)

Lemma rx_cls_inv (p : ascii -> bool) (r : list rx_item) (s : pystr) (pos : nat) :
  rx_match (RCls p :: r) s pos = true ->
  exists c, nth_error s pos = Some c /\ p c = true /\ rx_match r s (S pos) = true.
Proof.
  simpl. destruct (nth_error s pos) as [c|]; [|discriminate].
  intros H. apply andb_prop in H as [H1 H2]. eauto.
Qed.

Lemma rx_alt_inv (p q : ascii -> bool) (r : list rx_item) (s : pystr) (pos : nat) :
  rx_match (RAlt p q :: r) s pos = true ->
  exists c, nth_error s pos = Some c /\ (p c || q c)%bool = true /\
            rx_match r s (S pos) = true.
Proof.
  simpl. destruct (nth_error s pos) as [c|]; [|discriminate].
  intros H. apply andb_prop in H as [H1 H2]. eauto.
Qed.

Lemma rx_bol_inv (r : list rx_item) (s : pystr) (pos : nat) :
  rx_match (RBol :: r) s pos = true -> pos = 0%nat /\ rx_match r s pos = true.
Proof.
  simpl. intros H. apply andb_prop in H as [H1 H2].
  split; [apply Nat.eqb_eq, H1 | exact H2].
Qed.

Ltac peel_rx H :=
  repeat first
    [ apply rx_bol_inv in H as [_ H]
    | let c := fresh "c" in let Hn := fresh "Hn" in let Hp := fresh "Hp" in
      apply rx_cls_inv in H as [c [Hn [Hp H]]]
    | let c := fresh "c" in let Hn := fresh "Hn" in let Hp := fresh "Hp" in
      apply rx_alt_inv in H as [c [Hn [Hp H]]] ].

Lemma ssn_isvalid_day_digits (v : pyval) :
  ssn_isvalid v = true ->
  exists s c9 c10, v = PStr s /\ slice s 9 11 = [c9; c10] /\
    nth_error s 9 = Some c9 /\ nth_error s 10 = Some c10 /\
    is_digit c9 = true /\ is_digit c10 = true.
Proof.
  destruct v as [s| |]; try discriminate. intros H.
  unfold ssn_isvalid, re_match, PATTERN in H.
  cbn [app repeat] in H. peel_rx H.
  match goal with
  | H9 : nth_error s 9 = Some ?a, H10 : nth_error s 10 = Some ?b,
    D9 : is_digit ?a = true, D10 : is_digit ?b = true |- _ =>
      exists s, a, b; split; [reflexivity|];
      split; [|split; [exact H9 | split; [exact H10 | split; assumption]]];
      unfold slice; simpl;
      do 9 (destruct s as [|? s]; [discriminate H9|]);
      destruct s as [|x s]; [discriminate H9|];
      destruct s as [|y s]; [discriminate H10|];
      simpl in H9, H10; inversion H9; inversion H10; subst; reflexivity
  end.
Qed.

Lemma day_field (v : pyval) :
  ssn_isvalid v = true ->
  exists s, v = PStr s /\ py_int_str (slice s 9 11) = Ok (raw_day s).
Proof.
  intros H. destruct (ssn_isvalid_day_digits v H)
    as [s [c9 [c10 [-> [Hsl [H9 [H10 [D9 D10]]]]]]]].
  exists s. split; [reflexivity|]. rewrite Hsl.
  rewrite py_int_str_digits by (try discriminate; simpl; rewrite D9, D10; reflexivity).
  unfold raw_day. replace (nth 9 s "0"%char) with c9 by (symmetry; apply nth_error_nth; exact H9).
  replace (nth 10 s "0"%char) with c10 by (symmetry; apply nth_error_nth; exact H10).
  cbn [fold_left]. f_equal. ring.
Qed.

(** [C8] For every value accepted by [ssn_isvalid], [ssn_get_sex] returns
    ['M'] when the raw integer at 1-indexed positions 10-11 is below 32
    and ['F'] otherwise, and nothing else; on the two sample codes it
    returns ['M'] and ['F']. *)
Theorem ssn_get_sex_by_raw_day (v : pyval) :
  ssn_isvalid v = true ->
  (exists s, v = PStr s /\
     ssn_get_sex v = Ok (if raw_day s <? 32 then py "M" else py "F")) /\
  ssn_get_sex (PStr (py "RCCMNL83S18D969H")) = Ok (py "M") /\
  ssn_get_sex (PStr (py "CNTCHR83T41D969D")) = Ok (py "F").
Proof.
  intros H. split; [|split; reflexivity].
  destruct (day_field v H) as [s [-> Hday]].
  exists s. split; [reflexivity|].
  unfold ssn_get_sex. rewrite H. cbn [assert bind]. rewrite Hday. cbn [bind].
  unfold and_or. destruct (raw_day s <? 32); reflexivity.
Qed.

Lemma ssn_get_sex_by_raw_day_witness :
  ssn_isvalid (PStr (py "CNTCHR83T41D969D")) = true /\
  ssn_get_sex (PStr (py "CNTCHR83T41D969D")) = Ok (py "F").
Proof.
  split; [reflexivity|].
  destruct (ssn_get_sex_by_raw_day (PStr (py "CNTCHR83T41D969D")) eq_refl)
    as [[s [Hs Hsex]] _].
  injection Hs as <-. rewrite Hsex. reflexivity.
Defined.

(** [C2] (code bug) A day field of ["00"] is not greater than 31, yet
    [day < 32 and day or day - 40] falls through to [day - 40] because [0]
    is falsy: the valid code ["RCCMNL83S00D969H"] gives ["-40/11/83"]. *)
Theorem ssn_get_birthday_day_zero :
  ssn_isvalid (PStr (py "RCCMNL83S00D969H")) = true /\
  raw_day (py "RCCMNL83S00D969H") = 0 /\
  ssn_get_birthday (PStr (py "RCCMNL83S00D969H")) = Ok (py "-40/11/83").
Proof. split; [reflexivity | split; reflexivity]. Qed.

(** [C3] (code bug) [re.match] with a trailing [$] also accepts a newline
    that ends the string: the 17-character string ["RCCMNL83S18D969H\n"]
    is reported valid. *)
Theorem ssn_isvalid_trailing_newline :
  length (py "RCCMNL83S18D969H" ++ ["010"%char]) = 17%nat /\
  ssn_isvalid (PStr (py "RCCMNL83S18D969H" ++ ["010"%char])) = true.
Proof. split; reflexivity. Qed.

(** ** Decimal digits *)

Lemma digit_char_value (d : Z) : 0 <= d < 10 ->
  is_digit (digit_char d) = true /\ digit_value (digit_char d) = d.
Proof.
  intros Hd. unfold is_digit, in_range, digit_value, digit_char.
  rewrite nat_ascii_embedding by lia.
  split; [apply andb_true_intro; split; apply Nat.leb_le; lia | lia].
Qed.

Lemma lsd_spec (fuel : nat) : forall n, 0 <= n < 2 ^ Z.of_nat fuel ->
  Forall (fun d => 0 <= d < 10) (lsd fuel n) /\
  fold_right (fun d a => a * 10 + d) 0 (lsd fuel n) = n /\
  n < 10 ^ Z.of_nat (length (lsd fuel n)).
Proof.
  induction fuel as [|f IH]; intros n Hn.
  - simpl in *. assert (n = 0) by lia. subst.
    split; [constructor; [lia | constructor] | split; simpl; lia].
  - cbn [lsd]. destruct (Z.ltb_spec n 10).
    + split; [constructor; [lia | constructor] | split; simpl; lia].
    + assert (Hq : 0 <= n / 10 < 2 ^ Z.of_nat f).
      { rewrite Nat2Z.inj_succ, Z.pow_succ_r in Hn by lia.
        split; [apply Z.div_pos; lia|].
        apply Z.div_lt_upper_bound; lia. }
      destruct (IH (n / 10) Hq) as [Hf [Hv Hb]].
      pose proof (Z.mod_pos_bound n 10 ltac:(lia)).
      pose proof (Z.div_mod n 10 ltac:(lia)).
      repeat split.
      * constructor; [lia | exact Hf].
      * cbn [fold_right]. rewrite Hv. lia.
      * cbn [length]. rewrite Nat2Z.inj_succ, Z.pow_succ_r by lia. lia.
Qed.

Lemma log2_fuel (n : Z) : 0 <= n -> n < 2 ^ Z.of_nat (S (Z.to_nat (Z.log2 n))).
Proof.
  intros Hn. rewrite Nat2Z.inj_succ, Z2Nat.id by apply Z.log2_nonneg.
  destruct (Z.eq_dec n 0) as [->|Hnz]; [reflexivity|].
  apply Z.log2_spec; lia.
Qed.

Lemma digits_of_spec (n : Z) : 0 <= n ->
  digits_of n <> [] /\ forallb is_digit (digits_of n) = true /\
  parse_value (digits_of n) = n /\ n < 10 ^ Z.of_nat (length (digits_of n)).
Proof.
  intros Hn. unfold digits_of.
  assert (Hne : lsd (S (Z.to_nat (Z.log2 n))) n <> [])
    by (cbn [lsd]; destruct (n <? 10); discriminate).
  set (l := lsd _ n) in *.
  destruct (lsd_spec (S (Z.to_nat (Z.log2 n))) n (conj Hn (log2_fuel n Hn)))
    as [Hf [Hv Hb]]. fold l in Hf, Hv, Hb. clearbody l.
  repeat split.
  - destruct l as [|x l']; [contradiction|].
    simpl. destruct (rev l'); discriminate.
  - apply forallb_forall. intros c Hc.
    apply in_map_iff in Hc as [d [<- Hd]]. apply in_rev in Hd.
    rewrite Forall_forall in Hf. exact (proj1 (digit_char_value d (Hf d Hd))).
  - unfold parse_value.
    assert (Hm : forall l' acc, Forall (fun d => 0 <= d < 10) l' ->
              fold_left (fun a c => a * 10 + digit_value c) (map digit_char l') acc =
              fold_left (fun a d => a * 10 + d) l' acc).
    { induction l' as [|d l' IHl]; intros acc Hl; [reflexivity|].
      inversion Hl as [|? ? Hd Hl']; subst. cbn [map fold_left].
      rewrite (proj2 (digit_char_value d Hd)). apply IHl, Hl'. }
    rewrite Hm by (apply Forall_rev, Hf).
    rewrite <- (rev_involutive l), fold_left_rev_right in Hv. exact Hv.
  - rewrite length_map, length_rev. exact Hb.
Qed.

Lemma digit_not_sign (c : ascii) : is_digit c = true ->
  (Ascii.eqb c "+" || Ascii.eqb c "-")%bool = false.
Proof.
  intros H. destruct (digit_cases c H) as [-> | [-> | [-> | [-> | [-> | [-> | [-> | [-> | [-> | ->]]]]]]]]];
    reflexivity.
Qed.

Lemma zfill_digits (w : nat) (s : pystr) : forallb is_digit s = true ->
  zfill w s = zeros (w - length s) ++ s.
Proof.
  intros H. unfold zfill.
  destruct (Nat.leb_spec w (length s)).
  - replace (w - length s)%nat with 0%nat by lia. reflexivity.
  - destruct s as [|c s'].
    + simpl. rewrite app_nil_r, Nat.sub_0_r. reflexivity.
    + simpl in H. apply andb_prop in H as [Hc _].
      rewrite (digit_not_sign c Hc). reflexivity.
Qed.

Lemma forallb_zeros (k : nat) : forallb is_digit (zeros k) = true.
Proof. induction k as [|k IH]; [reflexivity | exact IH]. Qed.

Lemma parse_value_zeros (k : nat) (s : pystr) :
  parse_value (zeros k ++ s) = parse_value s.
Proof.
  unfold parse_value. rewrite fold_left_app.
  replace (fold_left _ (zeros k) 0) with 0; [reflexivity|].
  induction k as [|k IH]; [reflexivity|].
  cbn [zeros repeat fold_left]. exact IH.
Qed.

(** [str(d)] for [0 <= d < 10]. *)
Lemma py_str_small (d : Z) : 0 <= d < 10 -> py_str_Z d = [digit_char d].
Proof.
  intros Hd. unfold py_str_Z, digits_of.
  destruct (Z.ltb_spec d 0); [lia|].
  cbn [lsd]. destruct (Z.ltb_spec d 10); [reflexivity | lia].
Qed.

Lemma py_int_digit (c : ascii) : is_digit c = true -> py_int_str [c] = Ok (digit_value c).
Proof.
  intros H. rewrite py_int_str_digits by (try discriminate; simpl; rewrite H; reflexivity).
  simpl. reflexivity.
Qed.

Lemma sum_loop_ok (f : nat -> result Z) (g : nat -> Z) (idx : list nat) :
  (forall i, In i idx -> f i = Ok (g i)) ->
  forall total, sum_loop f idx total = Ok (fold_left (fun a i => a + g i) idx total).
Proof.
  induction idx as [|i idx IH]; intros Hf total; [reflexivity|].
  cbn [sum_loop]. rewrite (Hf i (or_introl eq_refl)). cbn [bind].
  apply IH. intros j Hj. apply Hf. right. exact Hj.
Qed.

Lemma vat_check_digit_spec (t : pystr) :
  length t = 10%nat -> forallb is_digit t = true ->
  vat_number_check_digit t = Ok [digit_char (SpecVAT.check t)].
Proof.
  intros Hl Hd. unfold vat_number_check_digit.
  rewrite (zfill_digits 10 t Hd), Hl. cbn [Nat.sub zeros repeat app].
  assert (Hi : forall i, (i < 10)%nat ->
            index t i = Ok (nth i t "0"%char) /\ is_digit (nth i t "0"%char) = true).
  { intros i Hi. unfold index. rewrite (nth_error_nth' t "0"%char) by lia.
    split; [reflexivity|]. rewrite forallb_forall in Hd. apply Hd, nth_In. lia. }
  rewrite (sum_loop_ok _ (SpecVAT.digit_at t)).
  2:{ intros i Hin. destruct (Hi i) as [Hx Hy].
      - simpl in Hin. lia.
      - rewrite Hx. cbn [bind]. apply py_int_digit, Hy. }
  cbn [bind].
  rewrite (sum_loop_ok _ (fun i => SpecVAT.dbl (SpecVAT.digit_at t i))).
  2:{ intros i Hin. destruct (Hi i) as [Hx Hy].
      - simpl in Hin. lia.
      - rewrite Hx. cbn [bind]. rewrite (py_int_digit _ Hy). cbn [bind].
        unfold SpecVAT.dbl, SpecVAT.digit_at. rewrite (Z.mul_comm 2). reflexivity. }
  cbn [bind fold_left].
  unfold SpecVAT.check, SpecVAT.total.
  rewrite py_str_small by (apply Z.mod_pos_bound; lia).
  do 4 f_equal.
Qed.

Lemma forallb_firstn (p : ascii -> bool) (k : nat) (s : pystr) :
  forallb p s = true -> forallb p (firstn k s) = true.
Proof.
  intros H. rewrite <- (firstn_skipn k s), forallb_app in H.
  apply andb_prop in H. apply H.
Qed.

(** [str(n).zfill(11)] for [n >= 0]: zeros, then the decimal digits. *)
Lemma vat_norm_nonneg (n : Z) : 0 <= n ->
  let norm := zfill 11 (py_str_Z n) in
  norm = zeros (11 - length (digits_of n)) ++ digits_of n /\
  forallb is_digit norm = true /\ (11 <= length norm)%nat /\
  parse_value norm = n.
Proof.
  intros Hn norm.
  destruct (digits_of_spec n Hn) as [Hne [Hd [Hv _]]].
  assert (Hs : py_str_Z n = digits_of n)
    by (unfold py_str_Z; destruct (Z.ltb_spec n 0); [lia | reflexivity]).
  assert (Hnorm : norm = zeros (11 - length (digits_of n)) ++ digits_of n)
    by (unfold norm; rewrite Hs; apply zfill_digits, Hd).
  repeat split.
  - exact Hnorm.
  - rewrite Hnorm, forallb_app, forallb_zeros, Hd. reflexivity.
  - rewrite Hnorm, length_app. unfold zeros. rewrite repeat_length. lia.
  - rewrite Hnorm, parse_value_zeros. exact Hv.
Qed.

(** After [int()] succeeds with [n >= 0], the validator compares
    [vat_number[10]] with the check digit of the first ten digits. *)
Lemma vat_validation_nonneg (inp : vat_input) (n : Z) :
  vat_int inp = Ok n -> 0 <= n ->
  let norm := zfill 11 (py_str_Z n) in
  vat_number_validation inp =
  if Ascii.eqb (nth 10 norm "0"%char) (digit_char (SpecVAT.check (firstn 10 norm)))
  then Ok norm else Err (ValueError CheckDigitMismatch).
Proof.
  intros Hi Hn norm.
  destruct (vat_norm_nonneg n Hn) as [_ [Hd [Hl _]]]. fold norm in Hd, Hl.
  unfold vat_number_validation. rewrite Hi. cbn [bind]. fold norm.
  replace (slice norm 0 10) with (firstn 10 norm) by reflexivity.
  rewrite vat_check_digit_spec.
  2:{ rewrite length_firstn. lia. }
  2:{ apply forallb_firstn, Hd. }
  cbn [bind]. unfold index. rewrite (nth_error_nth' norm "0"%char) by lia.
  cbn [bind str_eqb]. rewrite andb_true_r.
  destruct (Ascii.eqb _ _); reflexivity.
Qed.

(** After [int()] succeeds with [n < 0], [str(n).zfill(11)] starts with
    ['-'] and the check-digit helper's [int('-')] raises. *)
Lemma vat_validation_neg (inp : vat_input) (n : Z) :
  vat_int inp = Ok n -> n < 0 ->
  vat_number_validation inp = Err (ValueError (InvalidLiteral (py "-"))).
Proof.
  intros Hi Hn.
  destruct (digits_of_spec (- n) ltac:(lia)) as [Hne [Hd _]].
  assert (Hs : py_str_Z n = "-"%char :: digits_of (- n))
    by (unfold py_str_Z; destruct (Z.ltb_spec n 0); [reflexivity | lia]).
  assert (Hz : exists r, zfill 11 (py_str_Z n) = "-"%char :: r /\ (10 <= length r)%nat).
  { rewrite Hs. unfold zfill. cbn [length].
    destruct (Nat.leb_spec 11 (S (length (digits_of (- n))))).
    - exists (digits_of (- n)). split; [reflexivity | lia].
    - cbn [Ascii.eqb orb]. eexists. split; [reflexivity|].
      rewrite length_app. unfold zeros. rewrite repeat_length.
      lia. }
  destruct Hz as [r [Hr Hlr]].
  unfold vat_number_validation. rewrite Hi. cbn [bind]. rewrite Hr.
  replace (slice ("-"%char :: r) 0 10) with ("-"%char :: firstn 9 r) by reflexivity.
  assert (Hl9 : length (firstn 9 r) = 9%nat) by (rewrite length_firstn; lia).
  unfold vat_number_check_digit, zfill. cbn [length]. rewrite Hl9.
  reflexivity.
Qed.

(** [C5] For every string of at most ten decimal digits, zero-padded to
    ten, [vat_number_check_digit] returns the digit
    [(10 - (S mod 10)) mod 10], where [S] adds the digits at even 0-based
    positions and, for each digit [d] at an odd position,
    [(2d div 10) + (2d mod 10)]; the check digit of ["1234567001"] is
    ['7'] and ["12345670017"] passes validation. *)
Theorem vat_check_digit_luhn (s : pystr) :
  (length s <= 10)%nat -> forallb is_digit s = true ->
  vat_number_check_digit s = Ok [digit_char (SpecVAT.check (zfill 10 s))] /\
  vat_number_check_digit (py "1234567001") = Ok (py "7") /\
  vat_number_validation (VatStr (py "12345670017")) = Ok (py "12345670017").
Proof.
  intros Hl Hd. split; [|split; vm_compute; reflexivity].
  assert (Hz : zfill 10 s = zeros (10 - length s) ++ s) by apply (zfill_digits 10 s Hd).
  assert (Hzl : length (zfill 10 s) = 10%nat)
    by (rewrite Hz, length_app; unfold zeros; rewrite repeat_length; lia).
  assert (Hzd : forallb is_digit (zfill 10 s) = true)
    by (rewrite Hz, forallb_app, forallb_zeros, Hd; reflexivity).
  rewrite <- (vat_check_digit_spec (zfill 10 s) Hzl Hzd).
  unfold vat_number_check_digit at 2.
  assert (Hzz : zfill 10 (zfill 10 s) = zfill 10 s)
    by (unfold zfill at 1; rewrite Hzl; reflexivity).
  rewrite Hzz. reflexivity.
Qed.

Lemma vat_check_digit_luhn_witness :
  (length (py "1234567") <= 10)%nat /\ forallb is_digit (py "1234567") = true /\
  vat_number_check_digit (py "1234567") = Ok (py "4").
Proof.
  split; [vm_compute; lia | split; [reflexivity |]].
  rewrite (proj1 (vat_check_digit_luhn (py "1234567") ltac:(vm_compute; lia) eq_refl)).
  vm_compute. reflexivity.
Defined.

Lemma vat_int_error (inp : vat_input) (e : exn) :
  vat_int inp = Err e -> exists s, inp = VatStr s /\ e = ValueError (InvalidLiteral s).
Proof.
  destruct inp as [s|z]; cbn [vat_int]; [|discriminate].
  intros H. unfold py_int_str in H.
  match type of H with
  | (match ?r with Some _ => _ | None => _ end) = _ => destruct r
  end; [discriminate | injection H as <-; eauto].
Qed.

Lemma vat_validation_error (inp : vat_input) (e : exn) :
  vat_int inp = Err e -> vat_number_validation inp = Err e.
Proof. intros H. unfold vat_number_validation. rewrite H. reflexivity. Qed.

(** The check digit of [str(n).zfill(11)[0:10]] for [n >= 0]. *)
Lemma vat_check_of_norm (n : Z) : 0 <= n ->
  let norm := zfill 11 (py_str_Z n) in
  vat_number_check_digit (slice norm 0 10) =
  Ok [digit_char (SpecVAT.check (firstn 10 norm))].
Proof.
  intros Hn norm. destruct (vat_norm_nonneg n Hn) as [_ [Hd [Hl _]]].
  apply vat_check_digit_spec; [rewrite length_firstn; fold norm in Hl; lia |].
  apply forallb_firstn, Hd.
Qed.

(** [C6] (as amended) [vat_number_validation] first applies [int()]; when
    that fails it raises the [int()] ValueError (invalid literal).  When it
    yields [n >= 0], the normalized string [str(n).zfill(11)] is a digit
    string of length at least 11, and the validator raises "Check digit
    does not match." exactly when [normalized[10]] differs from
    [vat_number_check_digit(normalized[0:10])], and otherwise returns the
    normalized string.  When it yields [n < 0], the validator raises the
    [int()] ValueError for ['-'] from inside the check-digit helper. *)
Theorem vat_validation_normalizes (inp : vat_input) :
  (forall e, vat_int inp = Err e ->
     exists s, inp = VatStr s /\ e = ValueError (InvalidLiteral s) /\
               vat_number_validation inp = Err e) /\
  (forall n, vat_int inp = Ok n -> 0 <= n ->
     let norm := zfill 11 (py_str_Z n) in
     (11 <= length norm)%nat /\ forallb is_digit norm = true /\
     parse_value norm = n /\
     exists k, vat_number_check_digit (slice norm 0 10) = Ok [k] /\
       vat_number_validation inp =
       if Ascii.eqb (nth 10 norm "0"%char) k then Ok norm
       else Err (ValueError CheckDigitMismatch)) /\
  (forall n, vat_int inp = Ok n -> n < 0 ->
     vat_number_validation inp = Err (ValueError (InvalidLiteral (py "-")))).
Proof.
  split; [|split].
  - intros e He. destruct (vat_int_error inp e He) as [s [Hs Hes]].
    exists s. split; [exact Hs | split; [exact Hes | apply vat_validation_error, He]].
  - intros n Hi Hn norm.
    destruct (vat_norm_nonneg n Hn) as [_ [Hd [Hl Hv]]].
    split; [exact Hl | split; [exact Hd | split; [exact Hv |]]].
    exists (digit_char (SpecVAT.check (firstn 10 norm))).
    split; [apply vat_check_of_norm, Hn | apply vat_validation_nonneg; assumption].
  - intros n Hi Hn. apply (vat_validation_neg inp n Hi Hn).
Qed.

Lemma vat_validation_normalizes_witness :
  vat_int (VatStr (py " 0012345670017")) = Ok 12345670017 /\
  vat_number_validation (VatStr (py " 0012345670017")) = Ok (py "12345670017") /\
  vat_int (VatInt (-1)) = Ok (-1) /\
  vat_number_validation (VatInt (-1)) = Err (ValueError (InvalidLiteral (py "-"))).
Proof.
  split; [vm_compute; reflexivity|].
  split.
  - destruct (proj1 (proj2 (vat_validation_normalizes (VatStr (py " 0012345670017"))))
                12345670017 ltac:(vm_compute; reflexivity) ltac:(lia))
      as [_ [_ [_ [k [Hk Hv]]]]].
    rewrite Hv. vm_compute in Hk. injection Hk as <-. vm_compute. reflexivity.
  - split; [reflexivity|].
    apply (proj2 (proj2 (vat_validation_normalizes (VatInt (-1)))) (-1) eq_refl).
    lia.
Defined.

(** [C6] (as stated, refuted) The input [-1] parses as an integer, yet the
    validator neither returns nor raises "Check digit does not match.": it
    raises the [int()] ValueError for ['-'], a format error. *)
Lemma vat_validation_parsed_fails_only_on_checksum_fails :
  ~ (forall inp n, vat_int inp = Ok n ->
       vat_number_validation inp = Ok (zfill 11 (py_str_Z n)) \/
       vat_number_validation inp = Err (ValueError CheckDigitMismatch)).
Proof.
  intros H. destruct (H (VatInt (-1)) (-1) eq_refl) as [Hc|Hc];
    vm_compute in Hc; discriminate Hc.
Qed.

(** [int()] reads a normalized VAT string back to its integer. *)
Lemma vat_int_norm (n : Z) : 0 <= n ->
  vat_int (VatStr (zfill 11 (py_str_Z n))) = Ok n.
Proof.
  intros Hn. destruct (vat_norm_nonneg n Hn) as [_ [Hd [Hl Hv]]].
  cbn [vat_int]. rewrite py_int_str_digits; [| |exact Hd].
  - f_equal. exact Hv.
  - intros He. rewrite He in Hl. simpl in Hl. lia.
Qed.

(** [C9] Whenever [vat_number_validation] succeeds with the string [s],
    validating [s] again succeeds and returns [s]. *)
Theorem vat_validation_idempotent (inp : vat_input) (s : pystr) :
  vat_number_validation inp = Ok s -> vat_number_validation (VatStr s) = Ok s.
Proof.
  intros H.
  destruct (vat_int inp) as [n|e] eqn:Hi.
  - destruct (Z.ltb_spec n 0) as [Hneg|Hn].
    + rewrite (vat_validation_neg inp n Hi Hneg) in H. discriminate H.
    + pose proof (vat_validation_nonneg inp n Hi Hn) as Hv. cbv zeta in Hv.
      rewrite H in Hv.
      pose proof (vat_validation_nonneg (VatStr (zfill 11 (py_str_Z n))) n
                    (vat_int_norm n Hn) Hn) as Hv'.
      cbv zeta in Hv'.
      destruct (Ascii.eqb _ _) in Hv, Hv'; [|discriminate Hv].
      injection Hv as ->. exact Hv'.
  - rewrite (vat_validation_error inp e Hi) in H. discriminate H.
Qed.

Lemma vat_validation_idempotent_witness :
  vat_number_validation (VatInt 12345670017) = Ok (py "12345670017") /\
  vat_number_validation (VatStr (py "12345670017")) = Ok (py "12345670017").
Proof.
  assert (H : vat_number_validation (VatInt 12345670017) = Ok (py "12345670017"))
    by (vm_compute; reflexivity).
  split; [exact H | exact (vat_validation_idempotent _ _ H)].
Defined.

(** [C10] No upper bound on length: when [int()] yields [n >= 10^11],
    [str(n)] has more than 11 digits, [zfill(11)] leaves it unchanged, and
    the validator returns it as is exactly when its character at index 10
    equals the check digit of its first ten digits, raising only "Check
    digit does not match." otherwise; ["123456700170"] is accepted and
    returned unchanged. *)
Theorem vat_validation_no_upper_bound (inp : vat_input) (n : Z) :
  vat_int inp = Ok n -> 10 ^ 11 <= n ->
  let d := py_str_Z n in
  (11 < length d)%nat /\ zfill 11 d = d /\
  (exists k, vat_number_check_digit (slice d 0 10) = Ok [k] /\
     vat_number_validation inp =
     if Ascii.eqb (nth 10 d "0"%char) k then Ok d
     else Err (ValueError CheckDigitMismatch)) /\
  vat_number_validation (VatStr (py "123456700170")) = Ok (py "123456700170").
Proof.
  intros Hi Hn d.
  assert (Hn0 : 0 <= n) by lia.
  destruct (digits_of_spec n Hn0) as [_ [_ [_ Hb]]].
  assert (Hd : d = digits_of n)
    by (unfold d, py_str_Z; destruct (Z.ltb_spec n 0); [lia | reflexivity]).
  assert (Hlen : (11 < length d)%nat).
  { rewrite Hd. destruct (Nat.ltb_spec 11 (length (digits_of n))) as [Hlt|Hge];
      [exact Hlt|].
    pose proof (Z.pow_le_mono_r 10 (Z.of_nat (length (digits_of n))) 11
                  ltac:(lia) ltac:(lia)). lia. }
  assert (Hz : zfill 11 d = d)
    by (unfold zfill; destruct (Nat.leb_spec 11 (length d)); [reflexivity | lia]).
  split; [exact Hlen | split; [exact Hz | split; [| vm_compute; reflexivity]]].
  exists (digit_char (SpecVAT.check (firstn 10 (zfill 11 (py_str_Z n))))).
  pose proof (vat_check_of_norm n Hn0) as Hc.
  pose proof (vat_validation_nonneg inp n Hi Hn0) as Hv.
  cbv zeta in Hc, Hv. fold d in Hc, Hv |- *. rewrite Hz in Hc, Hv |- *.
  split; [exact Hc | exact Hv].
Qed.

Lemma vat_validation_no_upper_bound_witness :
  vat_int (VatStr (py "123456700170")) = Ok 123456700170 /\
  vat_number_validation (VatStr (py "123456700170")) = Ok (py "123456700170").
Proof.
  split; [vm_compute; reflexivity|].
  exact (proj2 (proj2 (proj2 (vat_validation_no_upper_bound
           (VatStr (py "123456700170")) 123456700170
           ltac:(vm_compute; reflexivity) ltac:(lia))))).
Defined.

(** ** The accepted shape of [ssn_isvalid] *)

Ltac nth_from_nth_error s :=
  match goal with
  | |- context [nth ?k s "0"%char] =>
      match goal with
      | Hn : nth_error s k = Some ?c |- _ =>
          replace (nth k s "0"%char) with c by (symmetry; apply nth_error_nth; exact Hn)
      end
  end.

Lemma ssn_isvalid_shape (s : pystr) :
  ssn_isvalid (PStr s) = true ->
  (length s = 16%nat \/ (length s = 17%nat /\ nth 16 s "0"%char = "010"%char)) /\
  forall i, (i < 16)%nat -> nth i fc_classes (fun _ => false) (nth i s "0"%char) = true.
Proof.
  intros H. unfold ssn_isvalid, re_match, PATTERN in H.
  cbn [app repeat] in H. peel_rx H.
  split.
  - cbn [rx_match] in H. rewrite andb_true_r in H.
    apply orb_prop in H as [H|H].
    + left. apply Nat.eqb_eq in H. lia.
    + right. apply andb_prop in H as [H1 H2]. apply Nat.eqb_eq in H1.
      split; [lia|].
      destruct (nth_error s 16) as [x|] eqn:E; [|discriminate H2].
      apply Ascii.eqb_eq in H2. subst x. apply nth_error_nth. exact E.
  - intros i Hi.
    do 16 (destruct i as [|i];
           [nth_from_nth_error s; unfold fc_classes; cbn [nth repeat app]; assumption |]).
    lia.
Qed.

Lemma ssn_isvalid_of_shape (p : pystr) :
  length p = 16%nat ->
  (forall i, (i < 16)%nat -> nth i fc_classes (fun _ => false) (nth i p "0"%char) = true) ->
  ssn_isvalid (PStr p) = true /\ ssn_isvalid (PStr (p ++ ["010"%char])) = true.
Proof.
  intros Hl Hc.
  do 16 (destruct p as [|? p]; [discriminate Hl|]).
  destruct p; [|discriminate Hl].
  pose proof (Hc 0%nat ltac:(lia)) as P0.
  pose proof (Hc 1%nat ltac:(lia)) as P1.
  pose proof (Hc 2%nat ltac:(lia)) as P2.
  pose proof (Hc 3%nat ltac:(lia)) as P3.
  pose proof (Hc 4%nat ltac:(lia)) as P4.
  pose proof (Hc 5%nat ltac:(lia)) as P5.
  pose proof (Hc 6%nat ltac:(lia)) as P6.
  pose proof (Hc 7%nat ltac:(lia)) as P7.
  pose proof (Hc 8%nat ltac:(lia)) as P8.
  pose proof (Hc 9%nat ltac:(lia)) as P9.
  pose proof (Hc 10%nat ltac:(lia)) as P10.
  pose proof (Hc 11%nat ltac:(lia)) as P11.
  pose proof (Hc 12%nat ltac:(lia)) as P12.
  pose proof (Hc 13%nat ltac:(lia)) as P13.
  pose proof (Hc 14%nat ltac:(lia)) as P14.
  pose proof (Hc 15%nat ltac:(lia)) as P15.
  unfold fc_classes in *. cbn [nth repeat app] in *.
  unfold ssn_isvalid, re_match, PATTERN.
  split; cbn -[is_upper is_digit cls_month];
    repeat match goal with H : ?a = true |- context [?a] => rewrite H end;
    reflexivity.
Qed.

(** [ssn_isvalid] accepts exactly the strings of 16 characters that fit the
    pattern's classes position by position, and those same strings followed
    by a single newline. *)
Theorem ssn_isvalid_iff (s : pystr) :
  ssn_isvalid (PStr s) = true <->
  exists p, (s = p \/ s = p ++ ["010"%char]) /\ length p = 16%nat /\
    forall i, (i < 16)%nat -> nth i fc_classes (fun _ => false) (nth i p "0"%char) = true.
Proof.
  split.
  - intros H. destruct (ssn_isvalid_shape s H) as [Hl Hc].
    exists (firstn 16 s).
    assert (Hf : forall i, (i < 16)%nat -> nth i (firstn 16 s) "0"%char = nth i s "0"%char).
    { intros i Hi. rewrite nth_firstn. destruct (Nat.ltb_spec i 16); [reflexivity | lia]. }
    split; [|split].
    + destruct Hl as [Hl|[Hl Hn]].
      * left. symmetry. apply firstn_all2. lia.
      * right. rewrite <- (firstn_skipn 16 s) at 1. f_equal.
        assert (Hs : length (skipn 16 s) = 1%nat) by (rewrite length_skipn; lia).
        destruct (skipn 16 s) as [|x [|y r]] eqn:E; try discriminate Hs.
        rewrite <- Hn. rewrite <- (firstn_skipn 16 s), E.
        rewrite app_nth2; rewrite length_firstn; [|lia].
        replace (16 - Init.Nat.min 16 (length s))%nat with 0%nat by lia. reflexivity.
    + rewrite length_firstn. destruct Hl as [Hl|[Hl _]]; lia.
    + intros i Hi. rewrite Hf by exact Hi. apply Hc, Hi.
  - intros [p [Hs [Hl Hc]]]. destruct (ssn_isvalid_of_shape p Hl Hc).
    destruct Hs as [->| ->]; assumption.
Qed.

Lemma ssn_isvalid_iff_witness :
  ssn_isvalid (PStr (py "RCCMNL83S18D969H" ++ ["010"%char])) = true /\
  length (py "RCCMNL83S18D969H") = 16%nat.
Proof.
  split; [|reflexivity].
  apply (proj2 (ssn_isvalid_iff (py "RCCMNL83S18D969H" ++ ["010"%char]))).
  exists (py "RCCMNL83S18D969H"). split; [right; reflexivity | split; [reflexivity|]].
  intros i Hi. do 16 (destruct i as [|i]; [reflexivity|]). lia.
Defined.

(** ** Municipality *)

(** For every code accepted by [ssn_isvalid], [ssn_get_municipality] looks
    up [code[-5:-1]] in the table, falling back to ['Altro']: on a
    16-character code that is the cadastral code [code[11:15]]; on a code
    followed by a newline it is [code[12:16]], the last three cadastral
    characters and the check letter. *)
Theorem ssn_get_municipality_key (CODICI_CHOICES : pystr -> option pystr) (s : pystr) :
  ssn_isvalid (PStr s) = true ->
  let get k := match CODICI_CHOICES k with Some v => v | None => py "Altro" end in
  (length s = 16%nat /\ ssn_get_municipality CODICI_CHOICES (PStr s) = Ok (get (slice s 11 15))) \/
  (length s = 17%nat /\ ssn_get_municipality CODICI_CHOICES (PStr s) = Ok (get (slice s 12 16))).
Proof.
  intros H get. destruct (ssn_isvalid_shape s H) as [[Hl|[Hl _]] _].
  - left. split; [exact Hl|].
    unfold ssn_get_municipality. rewrite H. cbn [assert bind].
    unfold py_slice. rewrite Hl. reflexivity.
  - right. split; [exact Hl|].
    unfold ssn_get_municipality. rewrite H. cbn [assert bind].
    unfold py_slice. rewrite Hl. reflexivity.
Qed.

Lemma ssn_get_municipality_key_witness :
  ssn_isvalid (PStr (py "RCCMNL83S18D969H")) = true /\
  ssn_get_municipality (fun k => if str_eqb k (py "D969") then Some (py "Genova") else None)
    (PStr (py "RCCMNL83S18D969H")) = Ok (py "Genova").
Proof.
  split; [reflexivity|].
  destruct (ssn_get_municipality_key
              (fun k => if str_eqb k (py "D969") then Some (py "Genova") else None)
              (py "RCCMNL83S18D969H") eq_refl) as [[_ E]|[Hl _]].
  - rewrite E. reflexivity.
  - discriminate Hl.
Defined.

(** ** Birthday *)

Lemma slice_two (s : pystr) (a : nat) : (S a < length s)%nat ->
  slice s a (S (S a)) = [nth a s "0"%char; nth (S a) s "0"%char].
Proof.
  unfold slice. replace (S (S a) - a)%nat with 2%nat by lia.
  revert s. induction a as [|a IH]; intros s Hl.
  - destruct s as [|x [|y s]]; simpl in Hl; try lia. reflexivity.
  - destruct s as [|x s]; simpl in Hl; [lia|]. apply IH. lia.
Qed.

Lemma py_int_two_digits (x y : ascii) : is_digit x = true -> is_digit y = true ->
  py_int_str [x; y] = Ok (10 * digit_value x + digit_value y).
Proof.
  intros Hx Hy.
  rewrite py_int_str_digits by (try discriminate; simpl; rewrite Hx, Hy; reflexivity).
  cbn [fold_left]. f_equal. ring.
Qed.

Lemma digit_value_bound (c : ascii) : is_digit c = true -> 0 <= digit_value c < 10.
Proof.
  unfold is_digit, in_range, digit_value. intros H.
  apply andb_prop in H as [H1 H2]. apply Nat.leb_le in H1, H2. lia.
Qed.

Lemma list_index_in (l : pystr) (x : ascii) :
  existsb (Ascii.eqb x) l = true ->
  exists k, list_index l x = Ok k /\ (k < length l)%nat /\ nth k l "0"%char = x.
Proof.
  induction l as [|y l IH]; [discriminate|]. cbn [existsb list_index].
  destruct (Ascii.eqb_spec x y) as [->|Hne].
  - intros _. exists 0%nat. simpl. split; [reflexivity | split; [lia | reflexivity]].
  - intros H. destruct (IH H) as [k [Hk [Hlt Hn]]].
    exists (S k). rewrite Hk. simpl. split; [reflexivity | split; [lia | exact Hn]].
Qed.

Lemma and_or_day (raw : Z) : 0 <= raw ->
  and_or int_truthy (raw <? 32) raw (raw - 40) =
  if (0 <? raw) && (raw <? 32) then raw else raw - 40.
Proof.
  intros H. unfold and_or, int_truthy.
  destruct (Z.ltb_spec raw 32), (Z.ltb_spec 0 raw), (Z.eqb_spec raw 0);
    simpl; try reflexivity; lia.
Qed.

(** The fields [ssn_get_birthday] reads, in a code [ssn_isvalid] accepts. *)
Lemma ssn_birthday_fields (s : pystr) :
  ssn_isvalid (PStr s) = true ->
  (16 <= length s)%nat /\
  is_digit (nth 6 s "0"%char) = true /\ is_digit (nth 7 s "0"%char) = true /\
  cls_month (nth 8 s "0"%char) = true /\
  is_digit (nth 9 s "0"%char) = true /\ is_digit (nth 10 s "0"%char) = true.
Proof.
  intros H. destruct (ssn_isvalid_shape s H) as [Hl Hc].
  split; [destruct Hl as [Hl|[Hl _]]; lia|].
  repeat split; [apply (Hc 6%nat) | apply (Hc 7%nat) | apply (Hc 8%nat)
                | apply (Hc 9%nat) | apply (Hc 10%nat)]; lia.
Qed.

Lemma ssn_birthday_result (s : pystr) :
  ssn_isvalid (PStr s) = true ->
  exists k, (k < 12)%nat /\ nth k MONTHSCODE "0"%char = nth 8 s "0"%char /\
    ssn_get_birthday (PStr s) =
    Ok (fmt02d (if (0 <? raw_day s) && (raw_day s <? 32) then raw_day s else raw_day s - 40)
        ++ py "/" ++ fmt02d (Z.of_nat k + 1) ++ py "/"
        ++ fmt02d (10 * digit_value (nth 6 s "0"%char) + digit_value (nth 7 s "0"%char))).
Proof.
  intros H. destruct (ssn_birthday_fields s H) as [Hl [D6 [D7 [M8 [D9 D10]]]]].
  destruct (list_index_in MONTHSCODE (nth 8 s "0"%char) M8) as [k [Hk [Hlt Hn]]].
  exists k. split; [exact Hlt | split; [exact Hn|]].
  unfold ssn_get_birthday. rewrite H. cbn [assert bind].
  rewrite (slice_two s 9) by lia. rewrite (py_int_two_digits _ _ D9 D10). cbn [bind].
  unfold index. rewrite (nth_error_nth' s "0"%char) by lia. cbn [bind].
  rewrite Hk. cbn [bind].
  rewrite (slice_two s 6) by lia. rewrite (py_int_two_digits _ _ D6 D7). cbn [bind].
  rewrite and_or_day.
  - reflexivity.
  - pose proof (digit_value_bound _ D9). pose proof (digit_value_bound _ D10). lia.
Qed.

(** For every code accepted by [ssn_isvalid], [ssn_get_birthday] returns
    ["%02d/%02d/%02d"] of: the raw day [r] (positions 10-11) when
    [0 < r < 32] and [r - 40] otherwise (so also for [r = 0]); the 1-based
    rank of [code[8]] in [MONTHSCODE]; and the two-digit year at positions
    7-8. *)
Theorem ssn_get_birthday_decode (s : pystr) :
  ssn_isvalid (PStr s) = true ->
  exists k, (k < 12)%nat /\ nth k MONTHSCODE "0"%char = nth 8 s "0"%char /\
    ssn_get_birthday (PStr s) =
    Ok (fmt02d (if (0 <? raw_day s) && (raw_day s <? 32) then raw_day s else raw_day s - 40)
        ++ py "/" ++ fmt02d (Z.of_nat k + 1) ++ py "/"
        ++ fmt02d (10 * digit_value (nth 6 s "0"%char) + digit_value (nth 7 s "0"%char))).
Proof. exact (ssn_birthday_result s). Qed.

Lemma ssn_get_birthday_decode_witness :
  ssn_isvalid (PStr (py "CNTCHR83T41D969D")) = true /\
  ssn_get_birthday (PStr (py "CNTCHR83T41D969D")) = Ok (py "01/12/83").
Proof.
  split; [reflexivity|].
  destruct (ssn_get_birthday_decode (py "CNTCHR83T41D969D") eq_refl) as [k [Hk [Hn E]]].
  rewrite E.
  do 12 (destruct k as [|k]; [vm_compute in Hn; first [discriminate Hn | reflexivity] |]).
  lia.
Defined.

Lemma fmt02d_two (z : Z) : -9 <= z <= 99 -> length (fmt02d z) = 2%nat.
Proof.
  intros Hz.
  assert (Hall : forallb (fun k => Nat.eqb (length (fmt02d (Z.of_nat k - 9))) 2)
                         (seq 0 109) = true) by (vm_compute; reflexivity).
  rewrite forallb_forall in Hall.
  specialize (Hall (Z.to_nat (z + 9)) ltac:(apply in_seq; lia)).
  rewrite Z2Nat.id in Hall by lia. replace (z + 9 - 9) with z in Hall by lia.
  apply Nat.eqb_eq, Hall.
Qed.

Lemma slash_layout (d m y : pystr) :
  length d = 2%nat -> length m = 2%nat -> length y = 2%nat ->
  length (d ++ py "/" ++ m ++ py "/" ++ y) = 8%nat /\
  nth 2 (d ++ py "/" ++ m ++ py "/" ++ y) "0"%char = "/"%char /\
  nth 5 (d ++ py "/" ++ m ++ py "/" ++ y) "0"%char = "/"%char.
Proof.
  intros Hd Hm Hy.
  destruct d as [|d1 [|d2 [|]]]; try discriminate Hd.
  destruct m as [|m1 [|m2 [|]]]; try discriminate Hm.
  destruct y as [|y1 [|y2 [|]]]; try discriminate Hy.
  repeat split; reflexivity.
Qed.

(** For every code accepted by [ssn_isvalid], the result of
    [ssn_get_birthday] has 8 characters with ['/'] at indices 2 and 5,
    except when the day field is ["00"], where it has 9. *)
Theorem ssn_get_birthday_length (s : pystr) :
  ssn_isvalid (PStr s) = true ->
  exists out, ssn_get_birthday (PStr s) = Ok out /\
    (raw_day s <> 0 -> length out = 8%nat /\
       nth 2 out "0"%char = "/"%char /\ nth 5 out "0"%char = "/"%char) /\
    (raw_day s = 0 -> length out = 9%nat).
Proof.
  intros H. destruct (ssn_birthday_result s H) as [k [Hk [_ E]]].
  destruct (ssn_birthday_fields s H) as [_ [D6 [D7 [_ [D9 D10]]]]].
  pose proof (digit_value_bound _ D6). pose proof (digit_value_bound _ D7).
  pose proof (digit_value_bound _ D9). pose proof (digit_value_bound _ D10).
  eexists. split; [exact E|].
  assert (Hm : length (fmt02d (Z.of_nat k + 1)) = 2%nat) by (apply fmt02d_two; lia).
  assert (Hy : length (fmt02d (10 * digit_value (nth 6 s "0"%char)
                               + digit_value (nth 7 s "0"%char))) = 2%nat)
    by (apply fmt02d_two; lia).
  unfold raw_day in *.
  split.
  - intros Hr.
    assert (Hd : length (fmt02d (if (0 <? 10 * digit_value (nth 9 s "0"%char)
                                        + digit_value (nth 10 s "0"%char))
                                    && (10 * digit_value (nth 9 s "0"%char)
                                        + digit_value (nth 10 s "0"%char) <? 32)
                                 then 10 * digit_value (nth 9 s "0"%char)
                                      + digit_value (nth 10 s "0"%char)
                                 else 10 * digit_value (nth 9 s "0"%char)
                                      + digit_value (nth 10 s "0"%char) - 40)) = 2%nat).
    { apply fmt02d_two.
      destruct (Z.ltb_spec 0 (10 * digit_value (nth 9 s "0"%char) + digit_value (nth 10 s "0"%char))),
               (Z.ltb_spec (10 * digit_value (nth 9 s "0"%char) + digit_value (nth 10 s "0"%char)) 32);
        cbn [andb]; lia. }
    apply slash_layout; assumption.
  - intros Hr. rewrite Hr.
    replace (if (0 <? 0) && (0 <? 32) then 0 else 0 - 40) with (-40) by reflexivity.
    rewrite !length_app, Hm, Hy. reflexivity.
Qed.

Lemma ssn_get_birthday_length_witness :
  ssn_isvalid (PStr (py "RCCMNL83S00D969H")) = true /\
  raw_day (py "RCCMNL83S00D969H") = 0 /\
  length (py "-40/11/83") = 9%nat.
Proof.
  split; [reflexivity | split; [reflexivity|]].
  destruct (ssn_get_birthday_length (py "RCCMNL83S00D969H") eq_refl) as [out [E [_ H0]]].
  vm_compute in E. injection E as <-. apply H0. reflexivity.
Defined.

(** ** The fiscal-code checksum: which characters it reads *)

Lemma ssn_loop_ext (a b : pystr) (fuel : nat) :
  forall i total,
  (forall k, (i <= k < i + fuel)%nat -> nth_error a k = nth_error b k) ->
  ssn_loop a i fuel total = ssn_loop b i fuel total.
Proof.
  induction fuel as [|f IH]; intros i total Hab; cbn [ssn_loop]; [reflexivity|].
  unfold index. rewrite (Hab i ltac:(lia)).
  destruct (nth_error b i) as [c|]; cbn [bind]; [|reflexivity].
  destruct (dict_get _ c); [|reflexivity].
  apply IH. intros k Hk. apply Hab. lia.
Qed.

Lemma ssn_check_digit_first15 (v w : pystr) :
  (forall k, (k < 15)%nat -> nth_error (upper v) k = nth_error (upper w) k) ->
  ssn_check_digit v = ssn_check_digit w.
Proof.
  intros H. unfold ssn_check_digit.
  rewrite (ssn_loop_ext (upper v) (upper w) 15 0 0) by (intros k Hk; apply H; lia).
  reflexivity.
Qed.

Lemma nth_error_upper_firstn (v : pystr) (k : nat) : (k < 15)%nat ->
  nth_error (upper (firstn 15 v)) k = nth_error (upper v) k.
Proof.
  intros Hk. unfold upper. rewrite <- firstn_map, nth_error_firstn.
  destruct (Nat.ltb_spec k 15); [reflexivity | lia].
Qed.

(** [ssn_check_digit] reads only the first 15 characters of its input,
    after uppercasing: two strings that agree there, ignoring case, get the
    same result, success or error. *)
Theorem ssn_check_digit_reads_first15 (v w : pystr) :
  upper (firstn 15 v) = upper (firstn 15 w) ->
  ssn_check_digit v = ssn_check_digit w.
Proof.
  intros H. apply ssn_check_digit_first15. intros k Hk.
  rewrite <- (nth_error_upper_firstn v k Hk), <- (nth_error_upper_firstn w k Hk), H.
  reflexivity.
Qed.

Lemma ssn_check_digit_reads_first15_witness :
  upper (firstn 15 (py "rccmnl83s18d969h")) = upper (firstn 15 (py "RCCMNL83S18D969X!")) /\
  ssn_check_digit (py "rccmnl83s18d969h") = ssn_check_digit (py "RCCMNL83S18D969X!").
Proof.
  split; [reflexivity|].
  apply ssn_check_digit_reads_first15. reflexivity.
Defined.







Lemma nth_error_prefix15 (p : pystr) (c : ascii) (rest : pystr) (k : nat) :
  length p = 15%nat -> (k < 15)%nat ->
  nth_error (upper (p ++ c :: rest)) k = nth_error (upper p) k.
Proof.
  intros Hp Hk. unfold upper. rewrite map_app, nth_error_app1; [reflexivity|].
  rewrite length_map. lia.
Qed.

(** On a code whose first 15 characters [p] are in [0-9A-Za-z],
    [ssn_validation] looks only at the next character [c]: it returns the
    whole input when [c] is the check letter of [p] uppercased, and raises
    the check-digit [ValueError] otherwise, whatever follows [c]. *)
Theorem ssn_validation_prefix (p : pystr) (c : ascii) (rest : pystr) :
  length p = 15%nat -> alnum_upto (upper p) 15 ->
  ssn_validation (p ++ c :: rest) =
  if Ascii.eqb c (SpecSSN.check_letter (upper p))
  then Ok (p ++ c :: rest) else Err (ValueError CheckDigitMismatch).
Proof.
  intros Hp Hal. unfold ssn_validation.
  rewrite (ssn_check_digit_first15 (p ++ c :: rest) p)
    by (intros k Hk; apply nth_error_prefix15; assumption).
  rewrite (ssn_check_digit_spec p Hal). cbn [bind].
  unfold index. rewrite nth_error_app2 by lia. rewrite Hp, Nat.sub_diag. cbn [nth_error bind].
  destruct (Ascii.eqb c _); reflexivity.
Qed.

Lemma ssn_validation_prefix_witness :
  length (py "RCCMNL83S18D969") = 15%nat /\ alnum_upto (upper (py "RCCMNL83S18D969")) 15 /\
  ssn_validation (py "RCCMNL83S18D969" ++ "h"%char :: py "XYZ") = Err (ValueError CheckDigitMismatch).
Proof.
  assert (Hal : alnum_upto (upper (py "RCCMNL83S18D969")) 15).
  { intros j Hj.
    do 15 (destruct j as [|j]; [eexists; split; [reflexivity | reflexivity] |]).
    lia. }
  split; [reflexivity | split; [exact Hal|]].
  rewrite (ssn_validation_prefix (py "RCCMNL83S18D969") "h"%char (py "XYZ") eq_refl Hal). vm_compute. reflexivity.
Defined.

Lemma ssn_loop_short (ssn : pystr) (fuel : nat) :
  forall i total, (i <= length ssn < i + fuel)%nat ->
  (forall k, (i <= k < length ssn)%nat ->
     exists c, nth_error ssn k = Some c /\ is_alnum_upper c = true) ->
  ssn_loop ssn i fuel total = Err IndexError.
Proof.
  induction fuel as [|f IH]; intros i total Hl Hok; [lia|].
  cbn [ssn_loop]. unfold index.
  destruct (Nat.eq_dec i (length ssn)) as [->|Hne].
  - rewrite (proj2 (nth_error_None ssn (length ssn)) (le_n _)). reflexivity.
  - destruct (Hok i ltac:(lia)) as [c [Hc Ha]]. rewrite Hc; cbn [bind].
    destruct (Nat.even i);
      [rewrite (odd_chars_spec c Ha) | rewrite (even_chars_spec c Ha)];
      apply IH; try lia; intros k Hk; apply Hok; lia.
Qed.

(** A string of fewer than 16 characters, all in [0-9A-Za-z], makes
    [ssn_validation] raise [IndexError] (not the [ValueError] of a wrong
    check digit). *)
Theorem ssn_validation_short (v : pystr) :
  (length v < 16)%nat -> alnum_upto (upper v) (length v) ->
  ssn_validation v = Err IndexError.
Proof.
  intros Hl Hal. unfold ssn_validation.
  assert (Hu : length (upper v) = length v) by apply length_map.
  destruct (Nat.eq_dec (length v) 15) as [E|Hne].
  - rewrite (ssn_check_digit_spec v) by (rewrite <- E; exact Hal). cbn [bind].
    unfold index. rewrite (proj2 (nth_error_None v 15)) by lia. reflexivity.
  - unfold ssn_check_digit.
    rewrite (ssn_loop_short (upper v) 15 0 0) by (try lia; intros k Hk; apply Hal; lia).
    reflexivity.
Qed.

Lemma ssn_validation_short_witness :
  (length (py "rccmnl83s18") < 16)%nat /\ alnum_upto (upper (py "rccmnl83s18")) 11 /\
  ssn_validation (py "rccmnl83s18") = Err IndexError.
Proof.
  assert (Hal : alnum_upto (upper (py "rccmnl83s18")) 11).
  { intros j Hj.
    do 11 (destruct j as [|j]; [eexists; split; [reflexivity | reflexivity] |]).
    lia. }
  split; [vm_compute; lia | split; [exact Hal|]].
  exact (ssn_validation_short (py "rccmnl83s18") ltac:(vm_compute; lia) Hal).
Defined.

(** ** The fiscal-code checksum under a one-character change *)

Lemma rank_weights (c : ascii) : is_alnum_upper c = true ->
  (rank c < 26)%nat /\
  SpecSSN.odd_weight c = nth (rank c) SpecSSN.odd_letters 0 /\
  SpecSSN.even_weight c = nth (rank c) SpecSSN.even_letters 0.
Proof.
  destruct c as [[] [] [] [] [] [] [] []]; intros H; vm_compute in H;
    first [discriminate H | vm_compute; split; [lia | split; reflexivity]].
Qed.

Lemma pos_letters_inj (b : bool) (r1 r2 : nat) : (r1 < 26)%nat -> (r2 < 26)%nat ->
  nth r1 (pos_letters b) 0 = nth r2 (pos_letters b) 0 -> r1 = r2.
Proof.
  intros H1 H2 He.
  assert (Hall : forallb (fun r1 => forallb (fun r2 =>
            implb (Z.eqb (nth r1 (pos_letters b) 0) (nth r2 (pos_letters b) 0))
                  (Nat.eqb r1 r2)) (seq 0 26)) (seq 0 26) = true)
    by (destruct b; vm_compute; reflexivity).
  rewrite forallb_forall in Hall.
  specialize (Hall r1 ltac:(apply in_seq; lia)).
  rewrite forallb_forall in Hall.
  specialize (Hall r2 ltac:(apply in_seq; lia)).
  rewrite He, Z.eqb_refl in Hall. apply Nat.eqb_eq, Hall.
Qed.

Lemma pos_letters_bound (b : bool) (r : nat) : (r < 26)%nat ->
  0 <= nth r (pos_letters b) 0 <= 25.
Proof.
  intros Hr.
  assert (Hall : forallb (fun r => (0 <=? nth r (pos_letters b) 0) &&
                                   (nth r (pos_letters b) 0 <=? 25)) (seq 0 26) = true)
    by (destruct b; vm_compute; reflexivity).
  rewrite forallb_forall in Hall.
  specialize (Hall r ltac:(apply in_seq; lia)).
  apply andb_prop in Hall as [A B]. apply Z.leb_le in A, B. lia.
Qed.

Lemma weight_at_rank (s : pystr) (j : nat) : is_alnum_upper (nth j s "0"%char) = true ->
  SpecSSN.weight_at s j = nth (rank (nth j s "0"%char)) (pos_letters (Nat.even j)) 0.
Proof.
  intros H. destruct (rank_weights _ H) as [_ [Ho Hev]].
  unfold SpecSSN.weight_at, pos_letters. destruct (Nat.even j); assumption.
Qed.

Lemma nth_error_replace_at (s : pystr) (j k : nat) (x : ascii) : (j < length s)%nat ->
  nth_error (replace_at s j x) k = if Nat.eqb k j then Some x else nth_error s k.
Proof.
  unfold replace_at. intros Hj.
  rewrite nth_error_app. rewrite length_firstn, Nat.min_l by lia.
  destruct (Nat.ltb_spec k j).
  - rewrite nth_error_firstn. destruct (Nat.ltb_spec k j); [|lia].
    destruct (Nat.eqb_spec k j); [lia | reflexivity].
  - destruct (Nat.eqb_spec k j) as [->|Hne].
    + rewrite Nat.sub_diag. reflexivity.
    + replace (k - j)%nat with (S (k - S j)) by lia. cbn [nth_error].
      rewrite nth_error_skipn. f_equal. lia.
Qed.

Lemma nth_replace_at (s : pystr) (j k : nat) (x : ascii) : (j < length s)%nat ->
  nth k (replace_at s j x) "0"%char = if Nat.eqb k j then x else nth k s "0"%char.
Proof.
  intros Hj. rewrite <- !nth_default_eq. unfold nth_default.
  rewrite nth_error_replace_at by exact Hj.
  destruct (Nat.eqb k j); reflexivity.
Qed.

Lemma upper_replace_at (v : pystr) (j : nat) (c : ascii) :
  upper (replace_at v j c) = replace_at (upper v) j (upper_char c).
Proof.
  unfold upper, replace_at. rewrite map_app, firstn_map, skipn_map. reflexivity.
Qed.

Lemma sum_update (f g : nat -> Z) (j : nat) :
  (forall k, k <> j -> f k = g k) ->
  forall len st,
  fold_right Z.add 0 (map g (seq st len)) =
  fold_right Z.add 0 (map f (seq st len)) +
  (if (st <=? j)%nat && (j <? st + len)%nat then g j - f j else 0).
Proof.
  intros Hfg len. induction len as [|len IH]; intros st; cbn [seq map fold_right].
  - destruct ((st <=? j)%nat && (j <? st + 0)%nat) eqn:E; [|lia].
    apply andb_prop in E as [E1 E2]. apply Nat.leb_le in E1. apply Nat.ltb_lt in E2. lia.
  - rewrite (IH (S st)).
    destruct (Nat.eq_dec st j) as [->|Hne].
    + replace ((S j <=? j)%nat) with false by (symmetry; apply Nat.leb_gt; lia).
      replace ((j <=? j)%nat && (j <? j + S len)%nat) with true
        by (symmetry; apply andb_true_intro; split; [apply Nat.leb_le | apply Nat.ltb_lt]; lia).
      cbn [andb]. lia.
    + rewrite (Hfg st Hne).
      replace ((S st <=? j)%nat && (j <? S st + len)%nat)
        with ((st <=? j)%nat && (j <? st + S len)%nat); [lia|].
      destruct (Nat.leb_spec st j), (Nat.leb_spec (S st) j),
               (Nat.ltb_spec j (st + S len)), (Nat.ltb_spec j (S st + len));
        cbn [andb]; reflexivity || lia.
Qed.

Lemma check_letter_mod (a b : pystr) :
  SpecSSN.check_letter a = SpecSSN.check_letter b <->
  SpecSSN.total a mod 26 = SpecSSN.total b mod 26.
Proof.
  unfold SpecSSN.check_letter.
  pose proof (Z.mod_pos_bound (SpecSSN.total a) 26 ltac:(lia)) as Ba.
  pose proof (Z.mod_pos_bound (SpecSSN.total b) 26 ltac:(lia)) as Bb.
  split; [intros H | intros ->; reflexivity].
  apply (f_equal nat_of_ascii) in H.
  rewrite !nat_ascii_embedding in H by lia.
  apply Z2Nat.inj; lia.
Qed.

Lemma mod26_shift (t d : Z) : -26 < d < 26 -> ((t + d) mod 26 = t mod 26 <-> d = 0).
Proof.
  intros Hd. split; [|intros ->; rewrite Z.add_0_r; reflexivity].
  intros H. Z.div_mod_to_equations. lia.
Qed.

(** Replacing the character at one 0-based index [j < 15] of a code by a
    character of [0-9A-Za-z] leaves the result of [ssn_check_digit]
    unchanged exactly when the new character, uppercased, has the same rank
    as the old one (['0'..'9'] and ['A'..'J'] give 0..9, ['K'..'Z'] give
    10..25): any other single-character change is detected. *)
Theorem ssn_check_digit_substitution (v : pystr) (j : nat) (c : ascii) :
  (j < 15)%nat -> alnum_upto (upper v) 15 -> is_alnum_upper (upper_char c) = true ->
  ssn_check_digit (replace_at v j c) = ssn_check_digit v <->
  rank (upper_char c) = rank (nth j (upper v) "0"%char).
Proof.
  intros Hj Hal Hc.
  set (s := upper v) in *. set (x := upper_char c) in *.
  destruct (Hal j Hj) as [o [Ho Hoa]].
  assert (Hlen : (j < length s)%nat) by (apply nth_error_Some; rewrite Ho; discriminate).
  assert (Hon : nth j s "0"%char = o) by (apply nth_error_nth; exact Ho).
  assert (Hal' : alnum_upto (replace_at s j x) 15).
  { intros k Hk. rewrite nth_error_replace_at by exact Hlen.
    destruct (Nat.eqb_spec k j); [exists x; split; [reflexivity | exact Hc] | apply Hal, Hk]. }
  assert (Hu : upper (replace_at v j c) = replace_at s j x) by apply upper_replace_at.
  rewrite (ssn_check_digit_spec (replace_at v j c)) by (rewrite Hu; exact Hal').
  rewrite (ssn_check_digit_spec v) by exact Hal. fold s. rewrite Hu.
  assert (Hxn : nth j (replace_at s j x) "0"%char = x)
    by (rewrite nth_replace_at by exact Hlen; rewrite Nat.eqb_refl; reflexivity).
  assert (Ht : SpecSSN.total (replace_at s j x) =
               SpecSSN.total s + (SpecSSN.weight_at (replace_at s j x) j - SpecSSN.weight_at s j)).
  { unfold SpecSSN.total.
    rewrite (sum_update (SpecSSN.weight_at s) (SpecSSN.weight_at (replace_at s j x)) j).
    - replace ((0 <=? j)%nat && (j <? 0 + 15)%nat) with true
        by (symmetry; apply andb_true_intro; split; [apply Nat.leb_le | apply Nat.ltb_lt]; lia).
      reflexivity.
    - intros k Hk. unfold SpecSSN.weight_at.
      rewrite nth_replace_at by exact Hlen.
      destruct (Nat.eqb_spec k j); [contradiction | reflexivity]. }
  rewrite (weight_at_rank (replace_at s j x) j) in Ht by (rewrite Hxn; exact Hc).
  rewrite (weight_at_rank s j) in Ht by (rewrite Hon; exact Hoa).
  rewrite Hxn, Hon in Ht. rewrite Hon.
  destruct (rank_weights x Hc) as [Rx _]. destruct (rank_weights o Hoa) as [Ro _].
  pose proof (pos_letters_bound (Nat.even j) (rank x) Rx).
  pose proof (pos_letters_bound (Nat.even j) (rank o) Ro).
  split.
  - intros E. injection E as E. apply check_letter_mod in E. rewrite Ht in E.
    apply mod26_shift in E; [|lia].
    apply (pos_letters_inj (Nat.even j)); [exact Rx | exact Ro | lia].
  - intros E. f_equal. apply check_letter_mod. rewrite Ht, E, Z.sub_diag, Z.add_0_r.
    reflexivity.
Qed.

Lemma ssn_check_digit_substitution_witness :
  ssn_check_digit (replace_at (py "RCCMNL83S18D969H") 6 "i"%char) =
  ssn_check_digit (py "RCCMNL83S18D969H").
Proof.
  assert (Hal : alnum_upto (upper (py "RCCMNL83S18D969H")) 15).
  { intros j Hj.
    do 15 (destruct j as [|j]; [eexists; split; [reflexivity | reflexivity] |]).
    lia. }
  apply (ssn_check_digit_substitution (py "RCCMNL83S18D969H") 6 "i"%char
           ltac:(lia) Hal eq_refl).
  vm_compute. reflexivity.
Defined.

(** ** The VAT check digit under a one-digit change *)

Lemma length_replace_at (s : pystr) (j : nat) (x : ascii) : (j < length s)%nat ->
  length (replace_at s j x) = length s.
Proof.
  intros Hj. unfold replace_at. rewrite length_app, length_firstn. cbn [length].
  rewrite length_skipn. lia.
Qed.

Lemma forallb_replace_at (p : ascii -> bool) (s : pystr) (j : nat) (x : ascii) :
  forallb p s = true -> p x = true -> forallb p (replace_at s j x) = true.
Proof.
  unfold replace_at. revert s. induction j as [|j IH]; intros s Hs Hx.
  - destruct s as [|y s]; cbn [firstn skipn app forallb] in *; rewrite Hx; [reflexivity|].
    apply andb_prop in Hs as [_ Hs]. exact Hs.
  - destruct s as [|y s]; cbn [firstn skipn app forallb] in *.
    + rewrite Hx. reflexivity.
    + apply andb_prop in Hs as [Hy Hs]. rewrite Hy. apply IH; assumption.
Qed.

Lemma vat_total_update (d : nat -> Z) (j : nat) (x : Z) : (j < 10)%nat ->
  SpecVAT.total (fun i => if Nat.eqb i j then x else d i) =
  SpecVAT.total d + (if Nat.even j then x - d j else SpecVAT.dbl x - SpecVAT.dbl (d j)).
Proof.
  intros Hj. unfold SpecVAT.total.
  do 10 (destruct j as [|j]; [cbn [Nat.eqb Nat.even]; lia|]). lia.
Qed.

Lemma digit_range (d : Z) : 0 <= d < 10 ->
  d = 0 \/ d = 1 \/ d = 2 \/ d = 3 \/ d = 4 \/ d = 5 \/ d = 6 \/ d = 7 \/ d = 8 \/ d = 9.
Proof. intros H. lia. Qed.

Lemma dbl_bound_inj (a b : Z) : 0 <= a < 10 -> 0 <= b < 10 ->
  0 <= SpecVAT.dbl a <= 9 /\ (SpecVAT.dbl a = SpecVAT.dbl b -> a = b).
Proof.
  intros Ha Hb.
  destruct (digit_range a Ha) as [-> | [-> | [-> | [-> | [-> | [-> | [-> | [-> | [-> | ->]]]]]]]]];
  destruct (digit_range b Hb) as [-> | [-> | [-> | [-> | [-> | [-> | [-> | [-> | [-> | ->]]]]]]]]];
    (split; [vm_compute; split; discriminate | vm_compute; first [reflexivity | discriminate]]).
Qed.

Lemma digit_char_inj (a b : Z) : 0 <= a < 10 -> 0 <= b < 10 ->
  digit_char a = digit_char b -> a = b.
Proof.
  intros Ha Hb H. unfold digit_char in H. apply (f_equal nat_of_ascii) in H.
  rewrite !nat_ascii_embedding in H by lia. lia.
Qed.

Lemma digit_value_inj (a b : ascii) : digit_value a = digit_value b -> a = b.
Proof.
  unfold digit_value. intros H.
  rewrite <- (ascii_nat_embedding a), <- (ascii_nat_embedding b). f_equal. lia.
Qed.

Lemma mod10_shift (t d : Z) : -10 < d < 10 -> (t + d) mod 10 = t mod 10 -> d = 0.
Proof. intros Hd H. Z.div_mod_to_equations. lia. Qed.

Lemma check_mod10 (a b : Z) :
  (10 - a mod 10) mod 10 = (10 - b mod 10) mod 10 -> a mod 10 = b mod 10.
Proof. intros H. Z.div_mod_to_equations. lia. Qed.

(** For a string [t] of ten decimal digits, replacing the digit at one
    index [j] by another decimal digit changes the result of
    [vat_number_check_digit] unless the new digit equals the old one: a
    single wrong digit is always detected. *)
Theorem vat_check_digit_single_change (t : pystr) (j : nat) (c : ascii) :
  length t = 10%nat -> forallb is_digit t = true -> (j < 10)%nat -> is_digit c = true ->
  vat_number_check_digit (replace_at t j c) = vat_number_check_digit t <->
  c = nth j t "0"%char.
Proof.
  intros Hl Hd Hj Hc.
  assert (Hjl : (j < length t)%nat) by lia.
  rewrite (vat_check_digit_spec t Hl Hd).
  rewrite (vat_check_digit_spec (replace_at t j c)).
  2:{ rewrite length_replace_at; assumption. }
  2:{ apply forallb_replace_at; assumption. }
  assert (Hda : forall i, SpecVAT.digit_at (replace_at t j c) i =
                 if Nat.eqb i j then digit_value c else SpecVAT.digit_at t i).
  { intros i. unfold SpecVAT.digit_at. rewrite nth_replace_at by exact Hjl.
    destruct (Nat.eqb i j); reflexivity. }
  assert (Htot : SpecVAT.total (SpecVAT.digit_at (replace_at t j c)) =
                 SpecVAT.total (fun i => if Nat.eqb i j then digit_value c
                                          else SpecVAT.digit_at t i)).
  { unfold SpecVAT.total. rewrite !Hda. reflexivity. }
  rewrite (vat_total_update _ j _ Hj) in Htot.
  assert (Ho : is_digit (nth j t "0"%char) = true)
    by (rewrite forallb_forall in Hd; apply Hd, nth_In; lia).
  pose proof (digit_value_bound c Hc) as Bc.
  pose proof (digit_value_bound _ Ho) as Bo.
  fold (SpecVAT.digit_at t j) in Bo.
  destruct (dbl_bound_inj (digit_value c) (SpecVAT.digit_at t j) Bc Bo) as [Dc Dinj].
  destruct (dbl_bound_inj (SpecVAT.digit_at t j) (digit_value c) Bo Bc) as [Do _].
  unfold SpecVAT.check.
  split.
  - intros E. injection E as E.
    apply digit_char_inj in E; [| apply Z.mod_pos_bound; lia | apply Z.mod_pos_bound; lia].
    apply check_mod10 in E. rewrite Htot in E.
    apply digit_value_inj. unfold SpecVAT.digit_at in *.
    destruct (Nat.even j).
    + apply mod10_shift in E; [lia | lia].
    + apply mod10_shift in E; [apply Dinj; lia | lia].
  - intros E. rewrite Htot. unfold SpecVAT.digit_at. rewrite <- E.
    replace (if Nat.even j then digit_value c - digit_value c
             else SpecVAT.dbl (digit_value c) - SpecVAT.dbl (digit_value c)) with 0
      by (destruct (Nat.even j); lia).
    rewrite Z.add_0_r. reflexivity.
Qed.

Lemma vat_check_digit_single_change_witness :
  vat_number_check_digit (replace_at (py "1234567001") 3 "8"%char) <>
  vat_number_check_digit (py "1234567001").
Proof.
  intros H.
  apply (vat_check_digit_single_change (py "1234567001") 3 "8"%char eq_refl eq_refl
           ltac:(lia) eq_refl) in H.
  discriminate H.
Defined.

(** ** What [vat_number_check_digit] and [vat_number_validation] read *)

Lemma zeros_app (a b : nat) : zeros a ++ zeros b = zeros (a + b).
Proof. unfold zeros. rewrite repeat_app. reflexivity. Qed.

Lemma length_zeros (k : nat) : length (zeros k) = k.
Proof. apply repeat_length. Qed.

(** Leading zeros do not change [vat_number_check_digit] on a digit string
    of at most ten characters: [zfill(10)] pads them back. *)
Theorem vat_check_digit_leading_zeros (k : nat) (s : pystr) :
  forallb is_digit s = true -> (k + length s <= 10)%nat ->
  vat_number_check_digit (zeros k ++ s) = vat_number_check_digit s.
Proof.
  intros Hd Hl. unfold vat_number_check_digit.
  assert (Hd' : forallb is_digit (zeros k ++ s) = true)
    by (rewrite forallb_app, forallb_zeros, Hd; reflexivity).
  rewrite (zfill_digits 10 _ Hd'), (zfill_digits 10 s Hd).
  rewrite length_app, length_zeros, app_assoc, zeros_app.
  replace (10 - (k + length s) + k)%nat with (10 - length s)%nat by lia.
  reflexivity.
Qed.

Lemma vat_check_digit_leading_zeros_witness :
  vat_number_check_digit (zeros 3 ++ py "4567001") = vat_number_check_digit (py "4567001").
Proof.
  apply vat_check_digit_leading_zeros; [reflexivity | vm_compute; lia].
Defined.

Lemma sum_loop_ext (f g : nat -> result Z) (idx : list nat) :
  (forall i, In i idx -> f i = g i) ->
  forall total, sum_loop f idx total = sum_loop g idx total.
Proof.
  induction idx as [|i idx IH]; intros H total; [reflexivity|].
  cbn [sum_loop]. rewrite (H i (or_introl eq_refl)).
  destruct (g i); cbn [bind]; [|reflexivity].
  apply IH. intros j Hj. apply H. right. exact Hj.
Qed.

(** On a string of ten or more characters, [vat_number_check_digit] reads
    only the first ten: the result, success or error, is that of
    [vat_number[:10]]. *)
Theorem vat_check_digit_first10 (s : pystr) :
  (10 <= length s)%nat ->
  vat_number_check_digit s = vat_number_check_digit (firstn 10 s).
Proof.
  intros Hl. unfold vat_number_check_digit.
  assert (H10 : length (firstn 10 s) = 10%nat) by (rewrite length_firstn; lia).
  assert (Hz : zfill 10 s = s)
    by (unfold zfill; destruct (Nat.leb_spec 10 (length s)); [reflexivity | lia]).
  assert (Hz' : zfill 10 (firstn 10 s) = firstn 10 s)
    by (unfold zfill; rewrite H10; reflexivity).
  rewrite Hz, Hz'.
  assert (Hi : forall i, In i [0; 2; 4; 6; 8; 1; 3; 5; 7; 9]%nat ->
                 index s i = index (firstn 10 s) i).
  { intros i Hin. unfold index. rewrite nth_error_firstn.
    destruct (Nat.ltb_spec i 10); [reflexivity|].
    simpl in Hin. lia. }
  rewrite (sum_loop_ext _ (fun i => c <- index (firstn 10 s) i ;; py_int_str [c]))
    by (intros i Hin; rewrite Hi by (simpl in *; tauto); reflexivity).
  destruct (sum_loop _ [0; 2; 4; 6; 8]%nat 0) as [t|e]; cbn [bind]; [|reflexivity].
  rewrite (sum_loop_ext _ (fun i => c <- index (firstn 10 s) i ;;
                               d <- py_int_str [c] ;;
                               Ok ((d * 2) / 10 + (d * 2) mod 10)))
    by (intros i Hin; rewrite Hi by (simpl in *; tauto); reflexivity).
  reflexivity.
Qed.

Lemma vat_check_digit_first10_witness :
  vat_number_check_digit (py "1234567001xyz") = vat_number_check_digit (py "1234567001").
Proof.
  apply (vat_check_digit_first10 (py "1234567001xyz")). vm_compute. lia.
Defined.

Lemma strip_left_rev_digits (ds : pystr) :
  ds <> [] -> forallb is_digit ds = true -> forall x, strip_left (rev ds ++ [x]) = rev ds ++ [x].
Proof.
  intros Hne Hd x.
  destruct (rev ds) as [|c r] eqn:Er.
  - apply (f_equal (@rev ascii)) in Er. rewrite rev_involutive in Er. contradiction.
  - cbn [app strip_left].
    assert (Hc : is_digit c = true).
    { rewrite forallb_forall in Hd. apply Hd, in_rev. rewrite Er. left. reflexivity. }
    rewrite (digit_not_space c Hc). reflexivity.
Qed.

(** [int(str(n)) == n] for every integer. *)
Lemma py_int_str_Z (n : Z) : py_int_str (py_str_Z n) = Ok n.
Proof.
  unfold py_str_Z. destruct (Z.ltb_spec n 0) as [Hn|Hn].
  - destruct (digits_of_spec (- n) ltac:(lia)) as [Hne [Hd [Hv _]]].
    unfold py_int_str, strip.
    replace (strip_left ("-"%char :: digits_of (- n))) with ("-"%char :: digits_of (- n))
      by reflexivity.
    cbn [rev]. rewrite strip_left_rev_digits by assumption.
    rewrite rev_app_distr, rev_involutive. cbn [rev app].
    destruct (digits_of (- n)) as [|c r] eqn:E; [contradiction|].
    unfold parse_unsigned. rewrite parse_digits_all by exact Hd.
    cbn [option_map]. unfold parse_value in Hv. rewrite Hv. f_equal. lia.
  - destruct (digits_of_spec n Hn) as [Hne [Hd [Hv _]]].
    rewrite py_int_str_digits by assumption. f_equal. exact Hv.
Qed.

(** Passing the integer [n] or its decimal string [str(n)] to
    [vat_number_validation] gives the same result, success or error,
    negative integers included. *)
Theorem vat_validation_int_str (n : Z) :
  vat_number_validation (VatInt n) = vat_number_validation (VatStr (py_str_Z n)).
Proof.
  unfold vat_number_validation. cbn [vat_int]. rewrite py_int_str_Z. reflexivity.
Qed.

(** A digit string with extra leading zeros is validated as the string
    without them. *)
Theorem vat_validation_leading_zeros (k : nat) (s : pystr) :
  s <> [] -> forallb is_digit s = true ->
  vat_number_validation (VatStr (zeros k ++ s)) = vat_number_validation (VatStr s).
Proof.
  intros Hne Hd. unfold vat_number_validation. cbn [vat_int].
  rewrite (py_int_str_digits s Hne Hd).
  rewrite py_int_str_digits.
  - fold (parse_value (zeros k ++ s)). rewrite parse_value_zeros. reflexivity.
  - destruct s; [contradiction|]. destruct (zeros k); discriminate.
  - rewrite forallb_app, forallb_zeros, Hd. reflexivity.
Qed.

Lemma vat_validation_leading_zeros_witness :
  vat_number_validation (VatStr (zeros 4 ++ py "12345670017")) = Ok (py "12345670017").
Proof.
  rewrite (vat_validation_leading_zeros 4 (py "12345670017") ltac:(discriminate) eq_refl).
  vm_compute. reflexivity.
Defined.

(** What [vat_number_validation] returns, when it returns: a string of
    decimal digits, at least 11 long, whose character at index 10 is the
    check digit of its first ten characters and that [int()] reads back as
    the integer value of the input. *)
Theorem vat_validation_output (inp : vat_input) (s : pystr) :
  vat_number_validation inp = Ok s ->
  forallb is_digit s = true /\ (11 <= length s)%nat /\
  vat_number_check_digit (slice s 0 10) = Ok [nth 10 s "0"%char] /\
  vat_int inp = Ok (parse_value s).
Proof.
  intros H.
  destruct (vat_int inp) as [n|e] eqn:Hi.
  - destruct (Z.ltb_spec n 0) as [Hneg|Hn].
    + rewrite (vat_validation_neg inp n Hi Hneg) in H. discriminate H.
    + pose proof (vat_validation_nonneg inp n Hi Hn) as Hv. cbv zeta in Hv.
      pose proof (vat_check_of_norm n Hn) as Hc. cbv zeta in Hc.
      destruct (vat_norm_nonneg n Hn) as [_ [Hd [Hl Hval]]].
      rewrite H in Hv.
      destruct (Ascii.eqb_spec (nth 10 (zfill 11 (py_str_Z n)) "0"%char)
                  (digit_char (SpecVAT.check (firstn 10 (zfill 11 (py_str_Z n))))))
        as [Heq|]; [|discriminate Hv].
      injection Hv as ->.
      split; [exact Hd | split; [exact Hl | split]].
      * rewrite Hc, Heq. reflexivity.
      * rewrite Hval. reflexivity.
  - rewrite (vat_validation_error inp e Hi) in H. discriminate H.
Qed.

Lemma vat_validation_output_witness :
  vat_number_validation (VatInt 12345670017) = Ok (py "12345670017") /\
  vat_number_check_digit (py "1234567001") = Ok (py "7").
Proof.
  assert (H : vat_number_validation (VatInt 12345670017) = Ok (py "12345670017"))
    by (vm_compute; reflexivity).
  split; [exact H|].
  destruct (vat_validation_output _ _ H) as [_ [_ [Hc _]]]. exact Hc.
Defined.

(** ** Errors of [vat_number_check_digit] *)








